(** * Social-media backend: users, admins, uploads and the admin console

    A shallow embedding of [src/index.js] (the Express application) and of
    [src/initAdmin.js] (the standalone bootstrap script).  The database is a
    pair of document collections, the disk is the set of paths that exist,
    and every route handler is a function from the world before the request
    to the world after it and the HTTP response.

    Conventions of the model:
    - requests are served one at a time: a handler runs from its first
      line to its response before the next one starts;
    - identifiers in route parameters and token payloads are well-formed
      [ObjectId]s, body fields of the JSON routes are strings, and the
      optional fields of the routes that test them are [option]s;
    - the clock is read once per request, every [new Date()] of a handler
      gives that reading;
    - [bcryptjs], [jsonwebtoken] and [path] are an interface, [Libraries];
      the two Mongoose models, whose files are not part of the sources, are
      modelled where they are used ([User_save], [Admin_save]). *)

From Stdlib Require Import ZArith Ascii.
From stdpp Require Import base strings list gmap sorting pretty.

Open Scope Z_scope.

(** ** Documents *)

(** A MongoDB [ObjectId]; route parameters and token payloads are taken
    already cast to one. *)
Definition ObjectId := N.

(** A JavaScript [Date], in milliseconds since the epoch. *)
Definition Date := Z.

Record SocialHandle := mkSocialHandle {
  platform : string;
  handle : string;
  addedAt : Date
}.

Record Image := mkImage {
  url : string;
  uploadedAt : Date
}.

(** A [User] document.  The two array paths are [option]s because the
    handlers test them for [undefined] before use. *)
Record User := mkUser {
  _id : ObjectId;
  email : string;
  password : string;
  name : string;
  socialHandles : option (list SocialHandle);
  images : option (list Image);
  createdAt : Date
}.

Record Admin := mkAdmin {
  admin_id : ObjectId;
  username : string;
  admin_password : string
}.

(** The persisted state: both collections in insertion order and the paths
    of the files on disk. *)
Record World := mkWorld {
  users : list User;
  admins : list Admin;
  files : gset string
}.

Definition empty_world : World := mkWorld [] [] ∅.

(** What a request reads from its surroundings: the clock ([new Date()],
    one reading per request), the identifier [new Model(...)] generates and
    the salt [bcrypt.hash] draws. *)
Record Env := mkEnv {
  now : Date;
  objectId : ObjectId;
  salt : string
}.

(** ** Responses *)

Inductive Body :=
| JError (error : string)
| JMessage (message : string)
| JToken (token : string)
| JUser (user : User)
| JUsers (docs : list User)
| HtmlError (message : string).

Record Response := mkResponse {
  status : N;
  body : Body
}.

(** ** What [res.json] sends *)

(** A JSON value; identifiers and dates are kept as they are rather than
    rendered. *)
Unset Elimination Schemes.
Inductive Json :=
| JsonString (s : string)
| JsonId (i : ObjectId)
| JsonDate (d : Date)
| JsonArray (items : list Json)
| JsonObject (fields : list (string * Json)).
Set Elimination Schemes.

(** The value of a key of a JSON object, if it has the key. *)
Definition json_field (k : string) (j : Json) : option Json :=
  match j with
  | JsonObject fields => snd <$> find (λ kv, String.eqb (fst kv) k) fields
  | _ => None
  end.

Definition SocialHandle_toJSON (h : SocialHandle) : Json :=
  JsonObject [("platform", JsonString (platform h));
              ("handle", JsonString (handle h));
              ("addedAt", JsonDate (addedAt h))].

Definition Image_toJSON (i : Image) : Json :=
  JsonObject [("url", JsonString (url i)); ("uploadedAt", JsonDate (uploadedAt i))].

(** Modelled from the spec: [models/User.js] is not among the sources.
    A user document as [res.json] serialises it: the full document (spec
    6), that is every field of spec 3, the stored password among them; an
    [undefined] array path is left out. *)
Definition User_toJSON (u : User) : Json :=
  JsonObject
    ([("_id", JsonId (_id u));
      ("email", JsonString (email u));
      ("password", JsonString (password u));
      ("name", JsonString (name u))]
     ++ match socialHandles u with
        | Some hs => [("socialHandles", JsonArray (SocialHandle_toJSON <$> hs))]
        | None => []
        end
     ++ match images u with
        | Some imgs => [("images", JsonArray (Image_toJSON <$> imgs))]
        | None => []
        end
     ++ [("createdAt", JsonDate (createdAt u))]).

(** The body of a response on the wire. *)
Definition res_json (b : Body) : Json :=
  match b with
  | JError error => JsonObject [("error", JsonString error)]
  | JMessage message => JsonObject [("message", JsonString message)]
  | JToken token => JsonObject [("token", JsonString token)]
  | JUser user => User_toJSON user
  | JUsers docs => JsonArray (User_toJSON <$> docs)
  | HtmlError message => JsonString message
  end.

(** ** JavaScript helpers *)

(** Truthiness of a body field: [undefined] and the empty string are falsy. *)
Definition truthy (v : option string) : bool :=
  match v with
  | None => false
  | Some s => negb (String.eqb s "")
  end.

(** [Array.prototype.findIndex]: the first index whose element satisfies
    [p], or [-1]. *)
Fixpoint findIndex {A} (p : A → bool) (l : list A) : Z :=
  match l with
  | [] => -1
  | x :: l' =>
      if p x then 0
      else let i := findIndex p l' in if Z.eqb i (-1) then -1 else 1 + i
  end.

Fixpoint string_drop (n : nat) (s : string) : string :=
  match n, s with
  | O, _ => s
  | S n', String _ s' => string_drop n' s'
  | S _, EmptyString => EmptyString
  end.

(** [s.replace(pat, rep)] with a string pattern: only the first occurrence
    is replaced. *)
Fixpoint js_replace (pat rep s : string) : string :=
  if String.prefix pat s then rep +:+ string_drop (String.length pat) s
  else match s with
       | EmptyString => EmptyString
       | String c s' => String c (js_replace pat rep s')
       end.

(** [x !== y] where [y] is a body field that may be [undefined]. *)
Definition strict_neq (x : string) (y : option string) : bool :=
  match y with
  | None => true
  | Some s => negb (String.eqb x s)
  end.

(** ** Collections *)

Definition User_findOne (e : string) (us : list User) : option User :=
  find (λ u, String.eqb (email u) e) us.

Definition User_findById (i : ObjectId) (us : list User) : option User :=
  find (λ u, N.eqb (_id u) i) us.

Definition Admin_findOne (n : string) (l : list Admin) : option Admin :=
  find (λ a, String.eqb (username a) n) l.

Definition Admin_findById (i : ObjectId) (l : list Admin) : option Admin :=
  find (λ a, N.eqb (admin_id a) i) l.

(** [User.find().sort({ createdAt: -1 })]: newest first. *)
Definition newer_or_equal (a b : User) : Prop := createdAt b ≤ createdAt a.

Global Instance newer_or_equal_dec : RelDecision newer_or_equal.
Proof. intros a b. unfold newer_or_equal. apply _. Defined.

Definition User_find_sorted (us : list User) : list User :=
  merge_sort newer_or_equal us.

(** [Model.findByIdAndDelete(id)]: at most one document goes. *)
Fixpoint User_findByIdAndDelete (i : ObjectId) (us : list User) : list User :=
  match us with
  | [] => []
  | u :: us' =>
      if N.eqb (_id u) i then us' else u :: User_findByIdAndDelete i us'
  end.

(** The write behind [doc.save()] on a loaded document: the stored document
    with the same [_id] is replaced. *)
Fixpoint User_replace (u : User) (us : list User) : list User :=
  match us with
  | [] => []
  | v :: us' =>
      if N.eqb (_id v) (_id u) then u :: us' else v :: User_replace u us'
  end.

Definition set_password (p : string) (u : User) : User :=
  mkUser (_id u) (email u) p (name u) (socialHandles u) (images u) (createdAt u).

Definition set_socialHandles (hs : option (list SocialHandle)) (u : User) : User :=
  mkUser (_id u) (email u) (password u) (name u) hs (images u) (createdAt u).

Definition set_images (imgs : option (list Image)) (u : User) : User :=
  mkUser (_id u) (email u) (password u) (name u) (socialHandles u) imgs (createdAt u).

Definition set_users (us : list User) (w : World) : World :=
  mkWorld us (admins w) (files w).

Definition set_admins (l : list Admin) (w : World) : World :=
  mkWorld (users w) l (files w).

Definition set_files (fs : gset string) (w : World) : World :=
  mkWorld (users w) (admins w) fs.

(** [h.handle = handle; h.addedAt = new Date()] on one array element. *)
Definition update_handle (hd : string) (t : Date) (h : SocialHandle) : SocialHandle :=
  mkSocialHandle (platform h) hd t.

(** A file of a multipart request: its original name and the reading of
    [Date.now()] when the storage engine named it. *)
Record File := mkFile {
  originalname : string;
  receivedAt : Date
}.

(** [if (fs.existsSync(p)) fs.unlinkSync(p)]. *)
Definition unlink_if_exists (p : string) (fs : gset string) : gset string :=
  if decide (p ∈ fs) then fs ∖ {[ p ]} else fs.

Definition unauthenticated : Response :=
  mkResponse 401 (JError "Please authenticate.").

Definition invalid_credentials : Response :=
  mkResponse 401 (JError "Invalid credentials").

Definition user_not_found : Response :=
  mkResponse 404 (JError "User not found").

Definition admin_username : string := "admin@gmail.com".
Definition admin_default_password : string := "admin".

(** The upsert of the upload handler: [findIndex] on the platform, then
    [push] or the in-place update of the element found. *)
Definition upsert_socialHandle (p h : string) (t : Date) (user : User) : User :=
  let hs := default [] (socialHandles user) in
  let existingHandleIndex := findIndex (λ x, String.eqb (platform x) p) hs in
  if Z.eqb existingHandleIndex (-1)
  then set_socialHandles (Some (hs ++ [mkSocialHandle p h t])) user
  else set_socialHandles
         (Some (alter (update_handle h t) (Z.to_nat existingHandleIndex) hs)) user.

(** The loop of the user-deletion handler over [user.images]. *)
Definition unlink_images (join : string → string) (imgs : list Image)
    (fs : gset string) : gset string :=
  foldl (λ acc image, unlink_if_exists (join (url image)) acc) fs imgs.

(** The entries of a user's [socialHandles], none when it is [undefined]. *)
Definition handles_of (u : User) : list SocialHandle := default [] (socialHandles u).

(** No two entries of the user's [socialHandles] have the same platform. *)
Definition handles_unique (u : User) : Prop := NoDup (platform <$> handles_of u).


(** The multipart decoder accepts the files of the request. *)
Definition within_limit (fs : option (list File)) : Prop :=
  ∀ l, fs = Some l → (length l ≤ 5)%nat.

(** ** The application *)

(** The libraries the application calls, as an interface.

    - [bcryptjs]: [bcrypt.hash(s, rounds)], with the salt it draws made an
      argument, and [bcrypt.compare(s, hash)];
    - [jsonwebtoken] under [process.env.JWT_SECRET]:
      [jwt.sign({ id }, secret, { expiresIn: '24h' })] at a given time, and
      [jwt.verify(token, secret)] at a given time, [None] when it throws;
    - [path.extname] and [path.join(__dirname, '..', p)];
    - the cost factor of the [User] schema's hook. *)
Class Libraries := {
  bcrypt_hash : string → N → string → string;
  bcrypt_compare : string → string → bool;
  jwt_sign : ObjectId → Date → string;
  jwt_verify : string → Date → option ObjectId;
  extname : string → string;
  project_path : string → string;
  saltRounds : N
}.

Section Backend.

Context `{libs : Libraries}.

(** *** The models *)

(** Modelled from the spec: [models/User.js] is not among the sources.
    The schema hashes the password automatically on write (spec 4.2,
    step 2); a document loaded from the collection and saved again
    without touching [password] keeps its stored hash. *)
Definition User_pre_save (passwordModified : bool) (e : Env) (u : User) : User :=
  if passwordModified
  then set_password (bcrypt_hash (password u) saltRounds (salt e)) u
  else u.

(** Modelled from the spec: [models/User.js] is not among the sources.
    [user.save()]: a new document is validated ([email] is required, spec
    3, and a required string may not be empty), the hook runs, then the
    document is inserted (the [_id] and the unique [email] must be free);
    a loaded one replaces its stored version.  The result is the document
    as the caller holds it afterwards and the new world, or the error
    message. *)
Definition User_save (isNew : bool) (e : Env) (u : User) (w : World)
  : string + (User * World) :=
  let u' := User_pre_save isNew e u in
  if isNew then
    if String.eqb (email u) "" then inl "User validation failed: email is required"
    else
    match User_findById (_id u') (users w), User_findOne (email u') (users w) with
    | None, None => inr (u', set_users (users w ++ [u']) w)
    | _, _ => inl "E11000 duplicate key error"
    end
  else
    match User_findById (_id u') (users w) with
    | Some _ => inr (u', set_users (User_replace u' (users w)) w)
    | None => inl "No document found for query"
    end.

(** Modelled from the spec: [models/Admin.js] is not among the sources.
    [admin.save()] on a new document stores the fields as given: the
    schema has no hashing hook (spec 7, and the comments in
    [initAdmin.js]); [_id] and [username] must be free. *)
Definition Admin_save (a : Admin) (w : World) : string + World :=
  match Admin_findById (admin_id a) (admins w), Admin_findOne (username a) (admins w) with
  | None, None => inr (set_admins (admins w ++ [a]) w)
  | _, _ => inl "E11000 duplicate key error"
  end.

(** *** Middleware *)

(** [auth]: the admin gate.  A missing header makes [.replace] throw;
    every failure ends in the same 401. *)
Definition auth (e : Env) (w : World) (authorization : option string)
  : Response + Admin :=
  match authorization with
  | None => inl unauthenticated
  | Some h =>
      let token := js_replace "Bearer " "" h in
      match jwt_verify token (now e) with
      | None => inl unauthenticated
      | Some i =>
          match Admin_findById i (admins w) with
          | None => inl unauthenticated
          | Some admin => inr admin
          end
      end
  end.

(** [userAuth]: the user gate. *)
Definition userAuth (e : Env) (w : World) (authorization : option string)
  : Response + User :=
  match authorization with
  | None => inl unauthenticated
  | Some h =>
      let token := js_replace "Bearer " "" h in
      match jwt_verify token (now e) with
      | None => inl unauthenticated
      | Some i =>
          match User_findById i (users w) with
          | None => inl unauthenticated
          | Some user => inr user
          end
      end
  end.

(** The [filename] callback of the disk storage. *)
Definition filename (f : File) : string :=
  pretty (receivedAt f) +:+ extname (originalname f).

(** [upload.array('images', 5)]: every file is written under the uploads
    directory, over a file of the same name if there is one.  A sixth file
    is an error handed to Express, which answers 500: by then the first
    five have been written, and the decoder removes what it wrote, so that
    none of those paths is on disk afterwards. *)
Definition upload_array (fs : option (list File)) (w : World)
  : Response * World + World :=
  match fs with
  | None => inr w
  | Some l =>
      if (5 <? Z.of_nat (length l))
      then inl (mkResponse 500 (HtmlError "MulterError: Unexpected field"),
                set_files
                  (files w ∖ list_to_set
                     (map (λ f, project_path ("/uploads/" +:+ filename f)) (take 5 l)))
                  w)
      else inr (set_files
                  (files w ∪ list_to_set
                     (map (λ f, project_path ("/uploads/" +:+ filename f)) l)) w)
  end.

(** *** Bootstrap in [index.js] *)

(** [initializeAdmin] of the server: the new world and the console. *)
Definition initializeAdmin (e : Env) (w : World) : World * list string :=
  match Admin_findOne admin_username (admins w) with
  | Some _ => (w, [])
  | None =>
      let hashedPassword := bcrypt_hash admin_default_password 10 (salt e) in
      let admin := mkAdmin (objectId e) admin_username hashedPassword in
      match Admin_save admin w with
      | inr w' => (w', ["Default admin user created"])
      | inl err => (w, ["Error initializing admin: " +:+ err])
      end
  end.

(** *** Bootstrap in [initAdmin.js] *)

(** The script: [MONGODB_URI] from the environment, whether the
    connection succeeds, and the result: the new world, the console and
    the exit status when [process.exit] was called. *)
Definition initAdmin_script (MONGODB_URI : option string) (connects : bool)
    (e : Env) (w : World) : World * list string * option N :=
  if negb (truthy MONGODB_URI) then
    (w, ["Error: MONGODB_URI is not defined in environment variables"], Some 1%N)
  else if negb connects then
    (w, ["Error: connection failed"], Some 1%N)
  else
    match Admin_findOne admin_username (admins w) with
    | None =>
        let admin := mkAdmin (objectId e) admin_username admin_default_password in
        match Admin_save admin w with
        | inr w' =>
            (w', ["Connected to MongoDB"; "Admin user created successfully";
                  "Disconnected from MongoDB"], None)
        | inl err => (w, ["Connected to MongoDB"; "Error: " +:+ err], Some 1%N)
        end
    | Some _ =>
        (w, ["Connected to MongoDB"; "Admin user already exists";
             "Disconnected from MongoDB"], None)
    end.

(** *** Routes *)

(** [POST /api/users/register] *)
Definition register (e : Env) (w : World) (req_email req_password req_name : string)
  : World * Response :=
  match User_findOne req_email (users w) with
  | Some _ => (w, mkResponse 400 (JError "Email already registered"))
  | None =>
      let user := mkUser (objectId e) req_email req_password req_name
                    (Some []) (Some []) (now e) in
      match User_save true e user w with
      | inr (_, w') => (w', mkResponse 201 (JMessage "Registration successful"))
      | inl err => (w, mkResponse 400 (JError err))
      end
  end.

(** [POST /api/users/login] *)
Definition login (e : Env) (w : World) (req_email req_password : string)
  : World * Response :=
  match User_findOne req_email (users w) with
  | None => (w, invalid_credentials)
  | Some user =>
      let isMatch := bcrypt_compare req_password (password user) in
      if negb isMatch then (w, invalid_credentials)
      else (w, mkResponse 200 (JToken (jwt_sign (_id user) (now e))))
  end.

(** [POST /api/admin/login] *)
Definition admin_login (e : Env) (w : World) (req_username req_password : string)
  : World * Response :=
  match Admin_findOne req_username (admins w) with
  | None => (w, invalid_credentials)
  | Some admin =>
      let isMatch := bcrypt_compare req_password (admin_password admin) in
      if negb isMatch then (w, invalid_credentials)
      else (w, mkResponse 200 (JToken (jwt_sign (admin_id admin) (now e))))
  end.

(** The handler of [POST /api/users/upload], after both middlewares. *)
Definition upload_handler (e : Env) (w : World) (user : User)
    (req_files : option (list File)) (req_platform req_handle : option string)
  : World * Response :=
  let new_images :=
    match req_files with
    | Some l => map (λ f, mkImage ("/uploads/" +:+ filename f) (now e)) l
    | None => []
    end in
  let user :=
    match req_platform, req_handle with
    | Some p, Some h =>
        if truthy req_platform && truthy req_handle
        then upsert_socialHandle p h (now e) user
        else user
    | _, _ => user
    end in
  let user :=
    if 0 <? Z.of_nat (length new_images)
    then set_images (Some (default [] (images user) ++ new_images)) user
    else user in
  match User_save false e user w with
  | inr (user, w') => (w', mkResponse 201 (JUser user))
  | inl err => (w, mkResponse 400 (JError err))
  end.

(** [POST /api/users/upload]: [userAuth], then the multipart decoder,
    then the handler. *)
Definition upload (e : Env) (w : World) (authorization : option string)
    (req_files : option (list File)) (req_platform req_handle : option string)
  : World * Response :=
  match userAuth e w authorization with
  | inl r => (w, r)
  | inr user =>
      match upload_array req_files w with
      | inl (r, w0) => (w0, r)
      | inr w1 => upload_handler e w1 user req_files req_platform req_handle
      end
  end.

(** [GET /api/users] *)
Definition list_users (e : Env) (w : World) (authorization : option string)
  : World * Response :=
  match auth e w authorization with
  | inl r => (w, r)
  | inr _ => (w, mkResponse 200 (JUsers (User_find_sorted (users w))))
  end.

(** [DELETE /api/users/:id] *)
Definition delete_user (e : Env) (w : World) (authorization : option string)
    (id : ObjectId) : World * Response :=
  match auth e w authorization with
  | inl r => (w, r)
  | inr _ =>
      match User_findById id (users w) with
      | None => (w, user_not_found)
      | Some user =>
          let fs :=
            match images user with
            | Some imgs =>
                if 0 <? Z.of_nat (length imgs)
                then unlink_images project_path imgs (files w)
                else files w
            | None => files w
            end in
          (mkWorld (User_findByIdAndDelete id (users w)) (admins w) fs,
           mkResponse 200 (JMessage "User deleted successfully"))
      end
  end.

(** [DELETE /api/users/:id/images] *)
Definition delete_user_image (e : Env) (w : World) (authorization : option string)
    (id : ObjectId) (imagePath : option string) : World * Response :=
  match auth e w authorization with
  | inl r => (w, r)
  | inr _ =>
      match User_findById id (users w) with
      | None => (w, user_not_found)
      | Some user =>
          match images user with
          | None =>
              (w, mkResponse 500
                    (JError "Cannot read properties of undefined (reading 'filter')"))
          | Some imgs =>
              let user :=
                set_images
                  (Some (List.filter (λ img, strict_neq (url img) imagePath) imgs))
                  user in
              match User_save false e user w with
              | inl err => (w, mkResponse 500 (JError err))
              | inr (_, w') =>
                  match imagePath with
                  | None =>
                      (w', mkResponse 500
                             (JError "The path argument must be of type string"))
                  | Some p =>
                      (set_files (unlink_if_exists (project_path p) (files w')) w',
                       mkResponse 200 (JMessage "Image deleted successfully"))
                  end
              end
          end
      end
  end.

(** [DELETE /api/users/:id/social-handles] *)
Definition delete_social_handle (e : Env) (w : World) (authorization : option string)
    (id : ObjectId) (req_platform : option string) : World * Response :=
  match auth e w authorization with
  | inl r => (w, r)
  | inr _ =>
      match User_findById id (users w) with
      | None => (w, user_not_found)
      | Some user =>
          match socialHandles user with
          | Some hs =>
              let user :=
                set_socialHandles
                  (Some (List.filter (λ h, strict_neq (platform h) req_platform) hs))
                  user in
              match User_save false e user w with
              | inl err => (w, mkResponse 500 (JError err))
              | inr (_, w') =>
                  (w', mkResponse 200 (JMessage "Social handle deleted successfully"))
              end
          | None =>
              (w, mkResponse 200 (JMessage "Social handle deleted successfully"))
          end
      end
  end.

(** *** The running system *)

Inductive Request :=
| POST_users_register (req_email req_password req_name : string)
| POST_users_login (req_email req_password : string)
| POST_admin_login (req_username req_password : string)
| POST_users_upload (authorization : option string)
    (req_files : option (list File)) (req_platform req_handle : option string)
| GET_users (authorization : option string)
| DELETE_users_id (authorization : option string) (id : ObjectId)
| DELETE_users_id_images (authorization : option string) (id : ObjectId)
    (imagePath : option string)
| DELETE_users_id_social_handles (authorization : option string) (id : ObjectId)
    (req_platform : option string).

Definition app (e : Env) (w : World) (r : Request) : World * Response :=
  match r with
  | POST_users_register m p n => register e w m p n
  | POST_users_login m p => login e w m p
  | POST_admin_login n p => admin_login e w n p
  | POST_users_upload a fs p h => upload e w a fs p h
  | GET_users a => list_users e w a
  | DELETE_users_id a i => delete_user e w a i
  | DELETE_users_id_images a i p => delete_user_image e w a i p
  | DELETE_users_id_social_handles a i p => delete_social_handle e w a i p
  end.

(** Everything that can happen to the world: a request served, the server
    started (its bootstrap runs), the bootstrap script run. *)
Inductive Event :=
| Served (r : Request)
| ServerStarted
| ScriptRun (MONGODB_URI : option string) (connects : bool).

Definition step (e : Env) (w : World) (ev : Event) : World :=
  match ev with
  | Served r => fst (app e w r)
  | ServerStarted => fst (initializeAdmin e w)
  | ScriptRun uri c => fst (fst (initAdmin_script uri c e w))
  end.

Inductive reachable : World → Prop :=
| reachable_empty : reachable empty_world
| reachable_step e w ev : reachable w → reachable (step e w ev).

(** *** Vocabulary of the properties *)

(** The token of a header names no record of the Admin collection, or of
    the User collection: whatever it verifies to finds nothing. *)
Definition names_no_admin (e : Env) (w : World) (h : string) : Prop :=
  ∀ i, jwt_verify (js_replace "Bearer " "" h) (now e) = Some i →
       Admin_findById i (admins w) = None.

Definition names_no_user (e : Env) (w : World) (h : string) : Prop :=
  ∀ i, jwt_verify (js_replace "Bearer " "" h) (now e) = Some i →
       User_findById i (users w) = None.



End Backend.

(** ** A small executable instance

    Stand-ins for the libraries, used to run the handlers on concrete
    requests: the hash prefixes its input, a token is [id] letters long and
    never expires. *)
Fixpoint letters (n : nat) : string :=
  match n with
  | O => ""
  | S n' => String "x"%char (letters n')
  end.

Definition sample_libraries : Libraries := {|
  bcrypt_hash := λ s _ _, "$2a$" +:+ s;
  bcrypt_compare := λ s h, String.eqb h ("$2a$" +:+ s);
  jwt_sign := λ i _, letters (N.to_nat i);
  jwt_verify := λ t _, Some (N.of_nat (String.length t));
  extname := λ _, ".png";
  project_path := λ p, "/srv/app" +:+ p;
  saltRounds := 10%N
|}.

Definition sample_env : Env := mkEnv 1000 7%N "salt".

Definition alice : User :=
  mkUser 3%N "alice@example.com" "$2a$wonderland" "Alice"
    (Some [mkSocialHandle "twitter" "a" 10]) 
    (Some [mkImage "/uploads/10.png" 10; mkImage "/uploads/11.png" 11]) 5.

Definition root_admin : Admin := mkAdmin 1%N admin_username "$2a$admin".

Definition sample_world : World :=
  mkWorld [alice] [root_admin] {[ "/srv/app/uploads/10.png" ]}.

(** The headers of Alice and of the admin under the sample tokens. *)
Definition alice_header : option string := Some "Bearer xxx".
Definition admin_header : option string := Some "Bearer x".

(** ** Vocabulary of the further properties *)

(** The entries of a user's [images], none when it is [undefined]. *)
Definition images_of (u : User) : list Image := default [] (images u).

(** No two users have the same [_id], or the same [email]. *)
Definition ids_unique (w : World) : Prop := NoDup (_id <$> users w).

Definition emails_unique (w : World) : Prop := NoDup (email <$> users w).

(** The Admin collection holds at most one record, under the well-known
    username. *)
Definition single_admin (w : World) : Prop :=
  (length (admins w) ≤ 1)%nat ∧ ∀ a, a ∈ admins w → username a = admin_username.

(** A string without the space character, as a signed token is. *)
Fixpoint no_space (s : string) : bool :=
  match s with
  | EmptyString => true
  | String c s' => negb (Ascii.eqb c " ") && no_space s'
  end.

(** Two files to which [path.extname] gives the same extension. *)
Definition same_extension `{Libraries} (f g : File) : Prop :=
  extname (originalname f) = extname (originalname g).

(** A second stand-in for the libraries, whose [bcrypt.compare] accepts
    nothing but a string of 60 characters. *)
Definition strict_libraries : Libraries := {|
  bcrypt_hash := λ s _ _, "$2a$" +:+ s;
  bcrypt_compare := λ s h, Nat.eqb (String.length h) 60;
  jwt_sign := λ i _, letters (N.to_nat i);
  jwt_verify := λ t _, Some (N.of_nat (String.length t));
  extname := λ _, ".png";
  project_path := λ p, "/srv/app" +:+ p;
  saltRounds := 10%N
|}.

Definition bob : User :=
  mkUser 4%N "bob@example.com" "$2a$builder" "Bob" (Some []) (Some []) 9.

Definition two_users_world : World :=
  mkWorld [alice; bob] [root_admin] {[ "/srv/app/uploads/10.png" ]}.

(** * Properties *)

Section Properties.

Context `{libs : Libraries}.

(** ** Lookups *)

Lemma User_findOne_Some m us u :
  User_findOne m us = Some u → u ∈ us ∧ email u = m.
Proof.
  unfold User_findOne. intros Hf. apply find_some in Hf as [Hin Heq].
  split; [by apply list_elem_of_In | by apply String.eqb_eq].
Qed.

Lemma User_findOne_None m us :
  User_findOne m us = None → ∀ u, u ∈ us → email u ≠ m.
Proof.
  unfold User_findOne. intros Hf u Hin%list_elem_of_In Heq.
  apply (find_none _ _ Hf) in Hin. apply String.eqb_neq in Hin. done.
Qed.

Lemma User_findOne_is_Some m us u :
  u ∈ us → email u = m → is_Some (User_findOne m us).
Proof.
  intros Hin Heq. destruct (User_findOne m us) eqn:Hf; [by eexists|].
  by destruct (User_findOne_None _ _ Hf u Hin).
Qed.

(** ** Registration *)

(** C7. Registering with an email that an existing user already has
    answers 400 [Email already registered] whatever the password and
    name, and leaves the world (so the User collection) as it was. *)
Theorem register_duplicate_email e w req_email req_password req_name :
  (∃ u, u ∈ users w ∧ email u = req_email) →
  register e w req_email req_password req_name
  = (w, mkResponse 400 (JError "Email already registered")).
Proof.
  intros (u & Hin & Heq). unfold register.
  by destruct (User_findOne_is_Some _ _ _ Hin Heq) as [v ->].
Qed.

(** ** Login *)

(** C5. For the user login and for the admin login alike, the answer to
    an unknown identifier and the answer to a known identifier with a
    password that does not match are the same response, 401 with the
    body [Invalid credentials], and neither changes the world. *)
Theorem login_failures_identical e1 w1 id1 pw1 e2 w2 id2 pw2 :
  (User_findOne id1 (users w1) = None →
   (∃ u, User_findOne id2 (users w2) = Some u
         ∧ bcrypt_compare pw2 (password u) = false) →
   login e1 w1 id1 pw1 = (w1, invalid_credentials)
   ∧ login e2 w2 id2 pw2 = (w2, invalid_credentials)
   ∧ snd (login e1 w1 id1 pw1) = snd (login e2 w2 id2 pw2))
  ∧
  (Admin_findOne id1 (admins w1) = None →
   (∃ a, Admin_findOne id2 (admins w2) = Some a
         ∧ bcrypt_compare pw2 (admin_password a) = false) →
   admin_login e1 w1 id1 pw1 = (w1, invalid_credentials)
   ∧ admin_login e2 w2 id2 pw2 = (w2, invalid_credentials)
   ∧ snd (admin_login e1 w1 id1 pw1) = snd (admin_login e2 w2 id2 pw2)).
Proof.
  split.
  - intros Hnone (u & Hsome & Hcmp). unfold login.
    rewrite Hnone, Hsome, Hcmp. done.
  - intros Hnone (a & Hsome & Hcmp). unfold admin_login.
    rewrite Hnone, Hsome, Hcmp. done.
Qed.

(** ** The two gates *)

Lemma js_replace_Bearer tok : js_replace "Bearer " "" ("Bearer " +:+ tok) = tok.
Proof. by destruct tok. Qed.

Lemma Admin_findById_Some i l a :
  Admin_findById i l = Some a → a ∈ l ∧ admin_id a = i.
Proof.
  unfold Admin_findById. intros Hf. apply find_some in Hf as [Hin Heq].
  split; [by apply list_elem_of_In | by apply N.eqb_eq].
Qed.

Lemma User_findById_Some i us u :
  User_findById i us = Some u → u ∈ us ∧ _id u = i.
Proof.
  unfold User_findById. intros Hf. apply find_some in Hf as [Hin Heq].
  split; [by apply list_elem_of_In | by apply N.eqb_eq].
Qed.

Lemma auth_inr e w h a :
  auth e w h = inr a →
  ∃ t, h = Some t
       ∧ jwt_verify (js_replace "Bearer " "" t) (now e) = Some (admin_id a)
       ∧ a ∈ admins w.
Proof.
  unfold auth. destruct h as [t|]; [|done].
  destruct (jwt_verify _ _) as [i|] eqn:Hv; [|done].
  destruct (Admin_findById i (admins w)) as [a'|] eqn:Hf; [|done].
  intros [= <-]. apply Admin_findById_Some in Hf as [Hin <-]. eauto.
Qed.

Lemma userAuth_inr e w h u :
  userAuth e w h = inr u →
  ∃ t, h = Some t
       ∧ jwt_verify (js_replace "Bearer " "" t) (now e) = Some (_id u)
       ∧ u ∈ users w.
Proof.
  unfold userAuth. destruct h as [t|]; [|done].
  destruct (jwt_verify _ _) as [i|] eqn:Hv; [|done].
  destruct (User_findById i (users w)) as [u'|] eqn:Hf; [|done].
  intros [= <-]. apply User_findById_Some in Hf as [Hin <-]. eauto.
Qed.

Lemma auth_rejects e w h : names_no_admin e w h → auth e w (Some h) = inl unauthenticated.
Proof.
  unfold names_no_admin, auth. intros Hno.
  destruct (jwt_verify _ _) as [i|]; [|done]. by rewrite (Hno i).
Qed.

Lemma userAuth_rejects e w h : names_no_user e w h → userAuth e w (Some h) = inl unauthenticated.
Proof.
  unfold names_no_user, userAuth. intros Hno.
  destruct (jwt_verify _ _) as [i|]; [|done]. by rewrite (Hno i).
Qed.

Lemma login_token e w m p tok :
  login e w m p = (w, mkResponse 200 (JToken tok)) →
  ∃ u, User_findOne m (users w) = Some u ∧ tok = jwt_sign (_id u) (now e).
Proof.
  unfold login. destruct (User_findOne m (users w)) as [u|]; [|done].
  destruct (bcrypt_compare p (password u)); cbn; [|done].
  intros [= <-]. eauto.
Qed.

Lemma admin_login_token e w n p tok :
  admin_login e w n p = (w, mkResponse 200 (JToken tok)) →
  ∃ a, Admin_findOne n (admins w) = Some a ∧ tok = jwt_sign (admin_id a) (now e).
Proof.
  unfold admin_login. destruct (Admin_findOne n (admins w)) as [a|]; [|done].
  destruct (bcrypt_compare p (admin_password a)); cbn; [|done].
  intros [= <-]. eauto.
Qed.

(** ** The upsert *)

Lemma findIndex_ge {A} (p : A → bool) l : -1 ≤ findIndex p l.
Proof.
  induction l as [|x l IH]; cbn; [lia|].
  destruct (p x); [lia|]. destruct (Z.eqb_spec (findIndex p l) (-1)); lia.
Qed.

Lemma findIndex_absent {A} (p : A → bool) l :
  (∀ x, x ∈ l → p x = false) → findIndex p l = -1.
Proof.
  induction l as [|x l IH]; intros Hall; cbn; [done|].
  rewrite (Hall x) by left. rewrite IH; [done|].
  intros y Hy. apply Hall. by right.
Qed.

Lemma findIndex_first {A} (p : A → bool) l1 x l2 :
  (∀ y, y ∈ l1 → p y = false) → p x = true →
  findIndex p (l1 ++ x :: l2) = Z.of_nat (length l1).
Proof.
  induction l1 as [|y l1 IH]; intros Hall Hx; cbn.
  - by rewrite Hx.
  - rewrite (Hall y) by left. rewrite IH; [|intros z Hz; apply Hall; by right|done].
    destruct (Z.eqb_spec (Z.of_nat (length l1)) (-1)); lia.
Qed.

Lemma findIndex_found {A} (p : A → bool) l :
  findIndex p l ≠ -1 →
  ∃ l1 x l2, l = l1 ++ x :: l2 ∧ p x = true ∧ (∀ y, y ∈ l1 → p y = false).
Proof.
  induction l as [|x l IH]; cbn; [done|].
  destruct (p x) eqn:Hx.
  - intros _. exists [], x, l. split; [done|]. split; [done|]. by intros y ?%elem_of_nil.
  - destruct (Z.eqb_spec (findIndex p l) (-1)) as [|Hne]; [done|]. intros _.
    destruct (IH Hne) as (l1 & y & l2 & -> & Hy & Hall).
    exists (x :: l1), y, l2. split; [done|]. split; [done|].
    intros z [->|Hz]%elem_of_cons; [done | by apply Hall].
Qed.

Lemma handles_of_set hs u : handles_of (set_socialHandles (Some hs) u) = hs.
Proof. done. Qed.

(** No entry with the platform: the new entry goes to the end. *)
Lemma upsert_absent p h t u :
  (∀ x, x ∈ handles_of u → platform x ≠ p) →
  upsert_socialHandle p h t u
  = set_socialHandles (Some (handles_of u ++ [mkSocialHandle p h t])) u.
Proof.
  intros Hno. unfold upsert_socialHandle. fold (handles_of u).
  rewrite findIndex_absent; [done|].
  intros x Hx. apply String.eqb_neq. by apply Hno.
Qed.

(** An entry with the platform: the first one is updated where it is. *)
Lemma upsert_present p h t u l1 x l2 :
  handles_of u = l1 ++ x :: l2 →
  platform x = p →
  (∀ y, y ∈ l1 → platform y ≠ p) →
  upsert_socialHandle p h t u
  = set_socialHandles (Some (l1 ++ mkSocialHandle p h t :: l2)) u.
Proof.
  intros Hsplit Hx Hno. unfold upsert_socialHandle. fold (handles_of u).
  rewrite Hsplit, findIndex_first.
  - destruct (Z.eqb_spec (Z.of_nat (length l1)) (-1)); [lia|].
    rewrite Nat2Z.id, alter_app_r_alt by lia.
    rewrite Nat.sub_diag. cbn. unfold update_handle. by rewrite Hx.
  - intros y Hy. apply String.eqb_neq. by apply Hno.
  - by apply String.eqb_eq.
Qed.

(** Either way the platforms stay pairwise distinct. *)
Lemma upsert_unique p h t u :
  handles_unique u → handles_unique (upsert_socialHandle p h t u).
Proof.
  unfold handles_unique. intros Hnd.
  destruct (Z.eq_dec (findIndex (λ x, String.eqb (platform x) p) (handles_of u)) (-1))
    as [Habs|Hpres].
  - unfold upsert_socialHandle. fold (handles_of u). rewrite Habs.
    change (-1 =? -1) with true. cbv iota.
    rewrite handles_of_set, fmap_app. apply NoDup_app. split; [done|].
    split; [|apply NoDup_singleton].
    intros q (x & -> & Hx)%list_elem_of_fmap Hq. cbn in Hq.
    apply list_elem_of_singleton in Hq.
    assert (findIndex (λ x, String.eqb (platform x) p) (handles_of u) ≠ -1); [|done].
    apply list_elem_of_split in Hx as (k1 & k2 & ->). clear Habs Hnd.
    induction k1 as [|y k1 IH]; cbn.
    + apply String.eqb_eq in Hq. by rewrite Hq.
    + destruct (String.eqb (platform y) p); [done|].
      destruct (Z.eqb_spec (findIndex (λ x0, String.eqb (platform x0) p) (k1 ++ x :: k2)) (-1));
        [done|].
      pose proof (findIndex_ge (λ x0, String.eqb (platform x0) p) (k1 ++ x :: k2)). lia.
  - destruct (findIndex_found _ _ Hpres) as (l1 & x & l2 & Hsplit & Hx & Hall).
    apply String.eqb_eq in Hx.
    rewrite (upsert_present p h t u l1 x l2 Hsplit Hx).
    + rewrite handles_of_set. rewrite Hsplit in Hnd.
      rewrite fmap_app in *. cbn in *. by rewrite Hx in Hnd.
    + intros y Hy. apply String.eqb_neq. by apply Hall.
Qed.

(** ** Saving a loaded document *)

Lemma userAuth_found e w h u :
  userAuth e w h = inr u → User_findById (_id u) (users w) = Some u.
Proof.
  unfold userAuth. destruct h as [t|]; [|done].
  destruct (jwt_verify _ _) as [i|]; [|done].
  destruct (User_findById i (users w)) as [u'|] eqn:Hf; [|done].
  intros [= <-]. by destruct (User_findById_Some _ _ _ Hf) as [_ ->].
Qed.

Lemma User_replace_found u us v :
  User_findById (_id u) us = Some v →
  User_findById (_id u) (User_replace u us) = Some u.
Proof.
  unfold User_findById. induction us as [|x us IH]; cbn; [done|].
  destruct (N.eqb_spec (_id x) (_id u)) as [Heq|Hne]; cbn.
  - intros _. by rewrite N.eqb_refl.
  - intros Hf. apply N.eqb_neq in Hne. rewrite Hne. by apply IH.
Qed.

Lemma User_replace_same u us :
  User_findById (_id u) us = Some u → User_replace u us = us.
Proof.
  unfold User_findById. induction us as [|x us IH]; cbn; [done|].
  destruct (N.eqb (_id x) (_id u)); [by intros [= ->]|].
  intros Hf. by rewrite IH.
Qed.


Lemma upload_array_accepts fs w :
  within_limit fs →
  ∃ w1, upload_array fs w = inr w1 ∧ users w1 = users w ∧ admins w1 = admins w.
Proof.
  intros Hlim. unfold upload_array. destruct fs as [l|]; [|by eexists].
  specialize (Hlim l eq_refl).
  destruct (Z.ltb_spec 5 (Z.of_nat (length l))); [lia|]. by eexists.
Qed.

(** The document the upload handler holds when it calls [save]: as far
    as [socialHandles] goes. *)
Lemma upload_accepted e w a user fs p h :
  userAuth e w a = inr user →
  within_limit fs →
  ∃ user' w',
    upload e w a fs p h = (w', mkResponse 201 (JUser user'))
    ∧ users w' = User_replace user' (users w)
    ∧ admins w' = admins w
    ∧ User_findById (_id user) (users w') = Some user'
    ∧ _id user' = _id user
    ∧ email user' = email user
    ∧ password user' = password user
    ∧ socialHandles user'
      = socialHandles
          match p, h with
          | Some p0, Some h0 =>
              if truthy p && truthy h then upsert_socialHandle p0 h0 (now e) user
              else user
          | _, _ => user
          end.
Proof.
  intros Hauth Hlim. unfold upload. rewrite Hauth.
  destruct (upload_array_accepts fs w Hlim) as (w1 & -> & Hus & Had).
  pose proof (userAuth_found _ _ _ _ Hauth) as Hfound.
  unfold upload_handler, User_save, User_pre_save.
  set (u1 := match p, h with
             | Some p0, Some h0 =>
                 if truthy p && truthy h then upsert_socialHandle p0 h0 (now e) user
                 else user
             | _, _ => user
             end).
  assert (_id u1 = _id user ∧ email u1 = email user ∧ password u1 = password user)
    as (Hid1 & Hem1 & Hpw1).
  { subst u1. destruct p, h; try done. destruct (truthy _ && truthy _); [|done].
    unfold upsert_socialHandle. by destruct (Z.eqb _ _). }
  match goal with
  | |- context [User_findById (_id ?d) (users w1)] => set (u2 := d)
  end.
  assert (_id u2 = _id user ∧ email u2 = email user ∧ password u2 = password user
          ∧ socialHandles u2 = socialHandles u1) as (Hid2 & Hem2 & Hpw2 & Hsh2).
  { subst u2. by destruct (0 <? _). }
  rewrite Hid2, Hus, Hfound. eexists _, _. split; [done|]. cbn.
  split; [done|]. split; [done|]. split; [|done].
  rewrite <- Hid2. apply (User_replace_found u2 (users w) user). by rewrite Hid2.
Qed.

Lemma filter_none {A} (p : A → bool) l :
  (∀ x, x ∈ l → p x = false) → List.filter p l = [].
Proof.
  induction l as [|x l IH]; intros Hall; cbn; [done|].
  rewrite (Hall x) by left. apply IH. intros y Hy. apply Hall. by right.
Qed.

Lemma filter_all {A} (p : A → bool) l :
  (∀ x, x ∈ l → p x = true) → List.filter p l = l.
Proof.
  induction l as [|x l IH]; intros Hall; cbn; [done|].
  rewrite (Hall x) by left. f_equal. apply IH. intros y Hy. apply Hall. by right.
Qed.

(** After an upsert on pairwise distinct platforms, the entries of the
    platform are the one just written and no other. *)
Lemma upsert_filter p h t u :
  handles_unique u →
  List.filter (λ x, String.eqb (platform x) p) (handles_of (upsert_socialHandle p h t u))
  = [mkSocialHandle p h t].
Proof.
  intros Hnd.
  destruct (Z.eq_dec (findIndex (λ x, String.eqb (platform x) p) (handles_of u)) (-1))
    as [Habs|Hpres].
  - unfold upsert_socialHandle. fold (handles_of u). rewrite Habs.
    change (-1 =? -1) with true. cbv iota. rewrite handles_of_set, List.filter_app.
    rewrite filter_none.
    + cbn. by rewrite String.eqb_refl.
    + intros x Hx. destruct (String.eqb (platform x) p) eqn:Hxp; [|done].
      destruct (list_elem_of_split _ _ Hx) as (k1 & k2 & Hk).
      assert (∃ l1 y l2, handles_of u = l1 ++ y :: l2
                         ∧ String.eqb (platform y) p = true
                         ∧ ∀ z, z ∈ l1 → String.eqb (platform z) p = false)
        as (l1 & y & l2 & Hs & Hy & Hl1).
      { clear Habs Hnd Hx. revert k1 Hk.
        induction (handles_of u) as [|z l IH]; intros k1 Hk.
        { by destruct k1. }
        destruct (String.eqb (platform z) p) eqn:Hz.
        - exists [], z, l. split; [done|]. split; [done|]. by intros ? ?%elem_of_nil.
        - destruct k1 as [|z' k1]; cbn in Hk.
          { injection Hk as -> ->. congruence. }
          injection Hk as -> Hk. destruct (IH k1 Hk) as (l1 & y & l2 & -> & Hy & Hl1).
          exists (z' :: l1), y, l2. split; [done|]. split; [done|].
          intros q [->|Hq]%elem_of_cons; [done | by apply Hl1]. }
      rewrite Hs, (findIndex_first _ l1 y l2 Hl1 Hy) in Habs. lia.
  - destruct (findIndex_found _ _ Hpres) as (l1 & x & l2 & Hsplit & Hx & Hall).
    apply String.eqb_eq in Hx.
    rewrite (upsert_present p h t u l1 x l2 Hsplit Hx)
      by (intros y Hy; apply String.eqb_neq; by apply Hall).
    rewrite handles_of_set, List.filter_app, (filter_none _ l1 Hall). cbn.
    rewrite String.eqb_refl. f_equal. apply filter_none.
    intros y Hy. apply String.eqb_neq. intros Hyp.
    unfold handles_unique in Hnd. rewrite Hsplit, fmap_app in Hnd. cbn in Hnd.
    apply NoDup_app in Hnd as (_ & _ & Hnd). apply NoDup_cons in Hnd as [Hnotin _].
    apply Hnotin. rewrite Hx, <- Hyp. by apply list_elem_of_fmap_2.
Qed.

Lemma handles_of_eq u v : socialHandles u = socialHandles v → handles_of u = handles_of v.
Proof. unfold handles_of. by intros ->. Qed.

Lemma nonempty_truthy s : s ≠ "" → truthy (Some s) = true.
Proof. intros Hs. cbn. by apply String.eqb_neq in Hs as ->. Qed.

(** C2. An upload that passes the user gate and carries a platform and a
    handle (both present and not empty) answers 201 with the saved user,
    in whose [socialHandles] the first entry of that platform, when there
    is one, has the new handle and [addedAt] at the place it had, and
    otherwise a new entry is the last one.  Uploading [twitter]/[a] and
    then [twitter]/[b] for a user with pairwise distinct platforms leaves
    one [twitter] entry, with handle [b]. *)
Theorem upload_upserts_by_platform :
  (∀ e w a user fs p h,
     userAuth e w a = inr user → within_limit fs → p ≠ "" → h ≠ "" →
     ∃ user' w',
       upload e w a fs (Some p) (Some h) = (w', mkResponse 201 (JUser user'))
       ∧ User_findById (_id user) (users w') = Some user'
       ∧ ((∀ x, x ∈ handles_of user → platform x ≠ p) →
            handles_of user' = handles_of user ++ [mkSocialHandle p h (now e)])
       ∧ (∀ l1 x l2, handles_of user = l1 ++ x :: l2 → platform x = p →
            (∀ y, y ∈ l1 → platform y ≠ p) →
            handles_of user' = l1 ++ mkSocialHandle p h (now e) :: l2))
  ∧ (∀ e1 e2 w a1 a2 user fs1 fs2,
     userAuth e1 w a1 = inr user → handles_unique user →
     within_limit fs1 → within_limit fs2 →
     let w1 := fst (upload e1 w a1 fs1 (Some "twitter") (Some "a")) in
     ∀ user1, userAuth e2 w1 a2 = inr user1 → _id user1 = _id user →
     let w2 := fst (upload e2 w1 a2 fs2 (Some "twitter") (Some "b")) in
     ∃ u2, User_findById (_id user) (users w2) = Some u2
       ∧ List.filter (λ x, String.eqb (platform x) "twitter") (handles_of u2)
         = [mkSocialHandle "twitter" "b" (now e2)]).
Proof.
  split.
  - intros e w a user fs p h Hauth Hlim Hp Hh.
    destruct (upload_accepted e w a user fs (Some p) (Some h) Hauth Hlim)
      as (user' & w' & Hup & _ & _ & Hfound & _ & _ & _ & Hsh).
    rewrite (nonempty_truthy p Hp), (nonempty_truthy h Hh) in Hsh. cbn in Hsh.
    exists user', w'. split; [done|]. split; [done|].
    rewrite (handles_of_eq _ _ Hsh). split.
    + intros Hno. by rewrite upsert_absent.
    + intros l1 x l2 Hs Hx Hno. by rewrite (upsert_present p h (now e) user l1 x l2).
  - intros e1 e2 w a1 a2 user fs1 fs2 Hauth Hnd Hlim1 Hlim2.
    destruct (upload_accepted e1 w a1 user fs1 (Some "twitter") (Some "a") Hauth Hlim1)
      as (user' & w1' & Hup & _ & _ & Hfound & _ & _ & _ & Hsh).
    cbn in Hsh. cbv zeta. rewrite Hup. cbn [fst]. intros user1 Hauth1 Hid.
    pose proof (userAuth_found _ _ _ _ Hauth1) as Hfound1.
    rewrite Hid, Hfound in Hfound1. injection Hfound1 as <-.
    destruct (upload_accepted e2 w1' a2 user' fs2 (Some "twitter") (Some "b") Hauth1 Hlim2)
      as (u2 & w2' & Hup2 & _ & _ & Hfound2 & _ & _ & _ & Hsh2).
    cbn in Hsh2. rewrite Hup2. cbn [fst]. exists u2.
    rewrite <- Hid. split; [done|]. rewrite (handles_of_eq _ _ Hsh2).
    apply upsert_filter. unfold handles_unique. rewrite (handles_of_eq _ _ Hsh).
    by apply upsert_unique.
Qed.

(** ** The admin console *)

Lemma set_socialHandles_same u hs : socialHandles u = Some hs → set_socialHandles (Some hs) u = u.
Proof. destruct u. cbn. by intros ->. Qed.

Lemma set_users_same w : set_users (users w) w = w.
Proof. by destruct w. Qed.

(** C9. For an admin and an existing user none of whose [socialHandles]
    entries has the given platform, the deletion of that social handle
    answers 200 with the success message and leaves the world, so the
    user with all its fields, exactly as it was. *)
Theorem delete_absent_social_handle e w a admin id user p :
  auth e w a = inr admin →
  User_findById id (users w) = Some user →
  (∀ x, x ∈ handles_of user → platform x ≠ p) →
  delete_social_handle e w a id (Some p)
  = (w, mkResponse 200 (JMessage "Social handle deleted successfully")).
Proof.
  intros Hauth Hfound Hno. unfold delete_social_handle. rewrite Hauth, Hfound.
  destruct (socialHandles user) as [hs|] eqn:Hhs; [|done].
  assert (List.filter (λ h, strict_neq (platform h) (Some p)) hs = hs) as ->.
  { apply filter_all. intros x Hx. cbn. apply negb_true_iff, String.eqb_neq.
    apply Hno. unfold handles_of. by rewrite Hhs. }
  rewrite (set_socialHandles_same _ _ Hhs). unfold User_save, User_pre_save.
  destruct (User_findById_Some _ _ _ Hfound) as [_ <-]. rewrite Hfound.
  by rewrite (User_replace_same _ _ Hfound), set_users_same.
Qed.

Lemma unlink_images_spec join imgs fs p :
  p ∈ unlink_images join imgs fs
  ↔ p ∈ fs ∧ ∀ img, img ∈ imgs → p ≠ join (url img).
Proof.
  unfold unlink_images. revert fs.
  induction imgs as [|i imgs IH]; intros fs; cbn.
  - split; [intros Hp; split; [done | by intros ? ?%elem_of_nil] | by intros [? _]].
  - rewrite IH. unfold unlink_if_exists. split.
    + intros [Hp Hrest]. destruct (decide (join (url i) ∈ fs)) as [Hin|Hout].
      * apply elem_of_difference in Hp as [Hp Hne]. split; [done|].
        intros img [->|Himg]%elem_of_cons; [set_solver | by apply Hrest].
      * split; [done|].
        intros img [->|Himg]%elem_of_cons; [by intros -> | by apply Hrest].
    + intros [Hp Hall]. split.
      * destruct (decide (join (url i) ∈ fs)); [|done].
        apply elem_of_difference. split; [done|].
        specialize (Hall i ltac:(by left)). set_solver.
      * intros img Himg. apply Hall. by right.
Qed.

Lemma User_findByIdAndDelete_split id us user :
  User_findById id us = Some user →
  ∃ l1 l2, us = l1 ++ user :: l2
           ∧ User_findByIdAndDelete id us = l1 ++ l2
           ∧ ∀ v, v ∈ l1 → _id v ≠ id.
Proof.
  unfold User_findById. induction us as [|x us IH]; cbn; [done|].
  destruct (N.eqb_spec (_id x) id) as [Heq|Hne].
  - intros [= ->]. exists [], us. split; [done|]. split; [done|]. by intros ? ?%elem_of_nil.
  - intros Hf. destruct (IH Hf) as (l1 & l2 & -> & -> & Hl1).
    exists (x :: l1), l2. split; [done|]. split; [done|].
    intros v [->|Hv]%elem_of_cons; [done | by apply Hl1].
Qed.

(** C4. For an admin: deleting a user that does not exist answers 404
    [User not found] and leaves the world, files and collections, as it
    was; deleting one that exists answers 200, takes that one document
    out of the collection and leaves on disk exactly the files that were
    there and are not the file of one of the user's images, whether or
    not those files existed. *)
Theorem delete_user_cascades e w a admin id :
  auth e w a = inr admin →
  (User_findById id (users w) = None →
     delete_user e w a id = (w, mkResponse 404 (JError "User not found")))
  ∧ (∀ user, User_findById id (users w) = Some user →
     ∃ w', delete_user e w a id
           = (w', mkResponse 200 (JMessage "User deleted successfully"))
       ∧ (∃ l1 l2, users w = l1 ++ user :: l2 ∧ users w' = l1 ++ l2
                   ∧ ∀ v, v ∈ l1 → _id v ≠ id)
       ∧ admins w' = admins w
       ∧ (∀ p, p ∈ files w'
               ↔ p ∈ files w
                 ∧ ∀ img, img ∈ default [] (images user) → p ≠ project_path (url img))
       ∧ (∀ img, img ∈ default [] (images user) → project_path (url img) ∉ files w')).
Proof.
  intros Hauth. unfold delete_user. rewrite Hauth. split.
  - by intros ->.
  - intros user Hfound. rewrite Hfound. eexists. split; [done|]. cbn.
    split; [|split; [done|]].
    + destruct (User_findByIdAndDelete_split _ _ _ Hfound) as (l1 & l2 & H1 & H2 & H3).
      by exists l1, l2.
    + assert (∀ p, p ∈ match images user with
                       | Some imgs =>
                           if 0 <? Z.of_nat (length imgs)
                           then unlink_images project_path imgs (files w)
                           else files w
                       | None => files w
                       end
                   ↔ p ∈ files w
                     ∧ ∀ img, img ∈ default [] (images user) → p ≠ project_path (url img))
        as Hfiles.
      { intros p. destruct (images user) as [imgs|]; cbn.
        - destruct (Z.ltb_spec 0 (Z.of_nat (length imgs))).
          + apply unlink_images_spec.
          + destruct imgs; [|cbn in *; lia].
            split; [intros Hp; split; [done | by intros ? ?%elem_of_nil] | by intros [? _]].
        - split; [intros Hp; split; [done | by intros ? ?%elem_of_nil] | by intros [? _]]. }
      split; [done|]. intros img Himg Hin. apply Hfiles in Hin as [_ Hne].
      by apply (Hne img).
Qed.

(** ** What the responses carry *)

Lemma upload_created e w a fs p h w' r :
  upload e w a fs p h = (w', r) → status r = 201%N →
  ∃ user, userAuth e w a = inr user ∧ within_limit fs.
Proof.
  unfold upload. destruct (userAuth e w a) as [r0|user] eqn:Hauth.
  { intros [= <- <-] Hst. unfold userAuth in Hauth.
    repeat case_match; simplify_eq; done. }
  unfold upload_array. destruct fs as [l|].
  - destruct (Z.ltb_spec 5 (Z.of_nat (length l))).
    + by intros [= <- <-].
    + intros _ _. exists user. split; [done|]. intros l' [= <-]. lia.
  - intros _ _. exists user. split; [done|]. by intros l' [=].
Qed.

(** C10. An upload that passes the user gate and the file limit is
    answered 201 with the user document that is then stored under that
    [_id], and the JSON sent has a [password] field equal to the stored
    password, the one stored before the request.  For an admin the listing
    is answered 200 with every stored document, each one whole: the JSON
    array holds for every stored user its document with the [password]
    field equal to the stored password.  The answer of a registration, a
    message or an error, has no [password] field, and on success it is the
    message alone.  These are the only ways to a 201 from the upload route
    and to a 200 from the listing. *)
Theorem responses_carry_password :
  (∀ e w a user fs p h,
     userAuth e w a = inr user → within_limit fs →
     ∃ u w',
       upload e w a fs p h = (w', mkResponse 201 (JUser u))
       ∧ _id u = _id user
       ∧ User_findById (_id u) (users w') = Some u
       ∧ User_findById (_id u) (users w) = Some user
       ∧ password u = password user
       ∧ json_field "password" (res_json (JUser u)) = Some (JsonString (password user)))
  ∧ (∀ e w a admin,
     auth e w a = inr admin →
     ∃ docs,
       list_users e w a = (w, mkResponse 200 (JUsers docs))
       ∧ docs ≡ₚ users w
       ∧ res_json (JUsers docs) = JsonArray (User_toJSON <$> docs)
       ∧ ∀ u, u ∈ users w →
           User_toJSON u ∈ User_toJSON <$> docs
           ∧ json_field "password" (User_toJSON u) = Some (JsonString (password u)))
  ∧ (∀ e w m p n,
       json_field "password" (res_json (body (snd (register e w m p n)))) = None
       ∧ (status (snd (register e w m p n)) = 201%N →
          body (snd (register e w m p n)) = JMessage "Registration successful"
          ∧ res_json (body (snd (register e w m p n)))
            = JsonObject [("message", JsonString "Registration successful")]))
  ∧ (∀ e w a fs p h,
       status (snd (upload e w a fs p h)) = 201%N →
       ∃ user, userAuth e w a = inr user ∧ within_limit fs)
  ∧ (∀ e w a,
       status (snd (list_users e w a)) = 200%N → ∃ admin, auth e w a = inr admin).
Proof.
  split; [|split; [|split; [|split]]].
  - intros e w a user fs p h Hauth Hlim.
    destruct (upload_accepted e w a user fs p h Hauth Hlim)
      as (u & w' & Hup & _ & _ & Hfound & Hid & _ & Hpw & _).
    exists u, w'. split; [done|]. split; [done|]. rewrite Hid.
    split; [done|]. split; [by apply userAuth_found in Hauth|]. split; [done|].
    cbn. by rewrite Hpw.
  - intros e w a admin Hauth. unfold list_users. rewrite Hauth. eexists.
    split; [done|].
    pose proof (merge_sort_Permutation newer_or_equal (users w)) as Hperm.
    split; [done|]. split; [done|]. intros u Hu. split; [|done].
    apply list_elem_of_fmap_2. unfold User_find_sorted. by rewrite Hperm.
  - intros e w m p n. unfold register.
    destruct (User_findOne m (users w)); [done|].
    by destruct (User_save _ _ _ _) as [err|[u w1]].
  - intros e w a fs p h Hst.
    apply (upload_created e w a fs p h (fst (upload e w a fs p h))
             (snd (upload e w a fs p h))); [|done].
    by destruct (upload e w a fs p h).
  - intros e w a. unfold list_users. destruct (auth e w a) as [r0|adm] eqn:Hauth.
    + unfold auth in Hauth. repeat case_match; simplify_eq; done.
    + intros _. by exists adm.
Qed.

(** ** The invariant of [socialHandles] *)



Lemma upload_array_inl fs w r0 w0 :
  upload_array fs w = inl (r0, w0) →
  users w0 = users w ∧ admins w0 = admins w ∧ status r0 = 500%N.
Proof.
  unfold upload_array. destruct fs as [l|]; [|done].
  destruct (5 <? Z.of_nat (length l)); [|done]. by intros [= <- <-].
Qed.

Lemma upload_array_inr fs w w1 :
  upload_array fs w = inr w1 → within_limit fs.
Proof.
  unfold upload_array. destruct fs as [l|]; [|by intros _ l' [=]].
  destruct (Z.ltb_spec 5 (Z.of_nat (length l))); [done|].
  intros _ l' [= <-]. lia.
Qed.



Lemma initializeAdmin_users e w : users (fst (initializeAdmin e w)) = users w.
Proof.
  unfold initializeAdmin, Admin_save. cbn.
  destruct (Admin_findOne admin_username (admins w)); [done|].
  by destruct (Admin_findById (objectId e) (admins w)).
Qed.

Lemma initAdmin_script_users uri c e w :
  users (fst (fst (initAdmin_script uri c e w))) = users w.
Proof.
  unfold initAdmin_script, Admin_save. cbn.
  destruct (negb (truthy uri)); [done|]. destruct (negb c); [done|].
  destruct (Admin_findOne admin_username (admins w)); [done|].
  by destruct (Admin_findById (objectId e) (admins w)).
Qed.



(** ** Properties that rest on the contracts of the libraries *)

Section Contracts.

(** A bcrypt hash starts with its version marker. *)
Hypothesis bcrypt_hash_format :
  ∀ s r st, String.prefix "$2" (bcrypt_hash s r st) = true.

(** The hash of a string is never that string. *)
Hypothesis bcrypt_hash_one_way : ∀ s r st, bcrypt_hash s r st ≠ s.

(** A string matches its own hash. *)
Hypothesis bcrypt_compare_hash :
  ∀ s r st, bcrypt_compare s (bcrypt_hash s r st) = true.

(** A token that verifies yields the identifier it was signed for. *)
Hypothesis jwt_verify_sign :
  ∀ i t t' j, jwt_verify (jwt_sign i t) t' = Some j → j = i.

(** A token verifies for 24 hours from its issue. *)
Hypothesis jwt_verify_valid :
  ∀ i t t', t ≤ t' < t + 86400000 → jwt_verify (jwt_sign i t) t' = Some i.

(** ** Bootstrap *)

(** C1. From one and the same world with an empty Admin collection, the
    bootstrap script stores the default admin with the literal password
    [admin], the server's bootstrap stores it with the bcrypt hash of
    [admin], and the two stored passwords differ. *)
Theorem bootstrap_paths_differ uri e1 e2 w :
  truthy uri = true →
  admins w = [] →
  admins (fst (fst (initAdmin_script uri true e1 w)))
    = [mkAdmin (objectId e1) admin_username "admin"]
  ∧ admins (fst (initializeAdmin e2 w))
    = [mkAdmin (objectId e2) admin_username (bcrypt_hash "admin" 10 (salt e2))]
  ∧ bcrypt_hash "admin" 10 (salt e2) ≠ "admin".
Proof using bcrypt_hash_format.
  intros Huri Hempty. unfold initAdmin_script, initializeAdmin, Admin_save.
  rewrite Huri, Hempty. cbn. repeat split.
  intros Heq. pose proof (bcrypt_hash_format "admin" 10%N (salt e2)) as Hfmt.
  rewrite Heq in Hfmt. discriminate.
Qed.

(** ** Registration and the first login *)

Lemma find_app_None {A} (p : A → bool) l1 l2 :
  find p l1 = None → find p (l1 ++ l2) = find p l2.
Proof.
  induction l1 as [|x l1 IH]; [done|]. cbn. destruct (p x); [done | apply IH].
Qed.

(** C6. A registration that succeeds stores a user whose password is the
    hash of the submitted one, which is not the submitted plaintext, and
    a login with that email and plaintext in the resulting world is
    answered 200 with a token for that user. *)
Theorem register_hashes_password e w req_email req_password req_name w' r :
  register e w req_email req_password req_name = (w', r) →
  status r = 201%N →
  ∃ u, users w' = users w ++ [u]
       ∧ email u = req_email
       ∧ password u = bcrypt_hash req_password saltRounds (salt e)
       ∧ password u ≠ req_password
       ∧ ∀ e', login e' w' req_email req_password
               = (w', mkResponse 200 (JToken (jwt_sign (_id u) (now e')))).
Proof using bcrypt_hash_one_way bcrypt_compare_hash.
  unfold register, User_save. cbn.
  destruct (User_findOne req_email (users w)) eqn:Hmail.
  { intros [= <- <-]. done. }
  destruct (String.eqb req_email "").
  { intros [= <- <-]. done. }
  destruct (User_findById (objectId e) (users w)) eqn:Hid.
  { intros [= <- <-]. done. }
  intros [= <- <-] _. eexists. cbn. repeat split.
  - apply bcrypt_hash_one_way.
  - intros e'. unfold login, User_findOne. cbn.
    rewrite find_app_None by exact Hmail. cbn.
    rewrite String.eqb_refl. cbn. by rewrite bcrypt_compare_hash.
Qed.

(** C8. The admin gate answers 401 to every header whose token names no
    Admin record, so do all four admin routes, leaving the world alone;
    the user gate and the upload route do the same for a token that names
    no User record.  A token handed out by the user login names the user
    who logged in: the user gate admits only a user with that [_id], and
    does admit the stored one for 24 hours, while the admin gate refuses
    the token whenever no Admin record has that [_id]; and the same with
    the roles exchanged. *)
Theorem gates_bind_principal :
  (∀ e w h, names_no_admin e w h →
     auth e w (Some h) = inl unauthenticated
     ∧ list_users e w (Some h) = (w, unauthenticated)
     ∧ (∀ i, delete_user e w (Some h) i = (w, unauthenticated))
     ∧ (∀ i p, delete_user_image e w (Some h) i p = (w, unauthenticated))
     ∧ (∀ i p, delete_social_handle e w (Some h) i p = (w, unauthenticated)))
  ∧ (∀ e w h, names_no_user e w h →
     userAuth e w (Some h) = inl unauthenticated
     ∧ (∀ fs p hd, upload e w (Some h) fs p hd = (w, unauthenticated)))
  ∧ (∀ e0 w0 m p tok, login e0 w0 m p = (w0, mkResponse 200 (JToken tok)) →
     ∃ u, User_findOne m (users w0) = Some u
       ∧ (∀ e w v, userAuth e w (Some ("Bearer " +:+ tok)) = inr v → _id v = _id u)
       ∧ (∀ e w v, now e0 ≤ now e < now e0 + 86400000 →
            User_findById (_id u) (users w) = Some v →
            userAuth e w (Some ("Bearer " +:+ tok)) = inr v)
       ∧ (∀ e w, Admin_findById (_id u) (admins w) = None →
            auth e w (Some ("Bearer " +:+ tok)) = inl unauthenticated))
  ∧ (∀ e0 w0 n p tok, admin_login e0 w0 n p = (w0, mkResponse 200 (JToken tok)) →
     ∃ a, Admin_findOne n (admins w0) = Some a
       ∧ (∀ e w b, auth e w (Some ("Bearer " +:+ tok)) = inr b → admin_id b = admin_id a)
       ∧ (∀ e w b, now e0 ≤ now e < now e0 + 86400000 →
            Admin_findById (admin_id a) (admins w) = Some b →
            auth e w (Some ("Bearer " +:+ tok)) = inr b)
       ∧ (∀ e w, User_findById (admin_id a) (users w) = None →
            userAuth e w (Some ("Bearer " +:+ tok)) = inl unauthenticated)).
Proof using jwt_verify_sign jwt_verify_valid.
  split; [|split; [|split]].
  - intros e w h Hno. pose proof (auth_rejects _ _ _ Hno) as Ha.
    unfold list_users, delete_user, delete_user_image, delete_social_handle.
    rewrite Ha. done.
  - intros e w h Hno. pose proof (userAuth_rejects _ _ _ Hno) as Ha.
    unfold upload. rewrite Ha. done.
  - intros e0 w0 m p tok (u & Hu & ->)%login_token. exists u.
    split; [done|]. split; [|split].
    + intros e w v (t & [= <-] & Hv & _)%userAuth_inr.
      rewrite js_replace_Bearer in Hv. by apply jwt_verify_sign in Hv.
    + intros e w v Ht Hf. unfold userAuth.
      rewrite js_replace_Bearer, (jwt_verify_valid _ _ _ Ht), Hf. done.
    + intros e w Hf. apply auth_rejects. intros i Hv.
      rewrite js_replace_Bearer in Hv. apply jwt_verify_sign in Hv. by subst.
  - intros e0 w0 n p tok (a & Ha & ->)%admin_login_token. exists a.
    split; [done|]. split; [|split].
    + intros e w b (t & [= <-] & Hv & _)%auth_inr.
      rewrite js_replace_Bearer in Hv. by apply jwt_verify_sign in Hv.
    + intros e w b Ht Hf. unfold auth.
      rewrite js_replace_Bearer, (jwt_verify_valid _ _ _ Ht), Hf. done.
    + intros e w Hf. apply userAuth_rejects. intros i Hv.
      rewrite js_replace_Bearer in Hv. apply jwt_verify_sign in Hv. by subst.
Qed.

End Contracts.

(** * Further properties of the handlers *)

(** ** The listing *)

Lemma newer_or_equal_transitive : Transitive newer_or_equal.
Proof. unfold newer_or_equal. intros a b c Hab Hbc. lia. Qed.

Lemma newer_or_equal_total : Total newer_or_equal.
Proof. unfold newer_or_equal. intros a b. lia. Qed.

Lemma StronglySorted_lookup {A} (R : relation A) l i j x y :
  StronglySorted R l → (i < j)%nat → l !! i = Some x → l !! j = Some y → R x y.
Proof.
  intros Hs. revert i j. induction Hs as [|z l Hs IH Hall]; intros i j Hij Hi Hj.
  - by rewrite lookup_nil in Hi.
  - destruct j as [|j]; [lia|]. destruct i as [|i]; cbn in *.
    + injection Hi as <-. rewrite Forall_forall in Hall. apply Hall.
      by apply list_elem_of_lookup_2 in Hj.
    + apply (IH i j); [lia|done|done].
Qed.

(** X1. For an admin the listing answers 200 with every stored user once,
    newest first: of two documents of the answer the earlier one was
    created no earlier than the later one; the world is not changed. *)
Theorem list_users_sorted e w a admin :
  auth e w a = inr admin →
  ∃ docs, list_users e w a = (w, mkResponse 200 (JUsers docs))
    ∧ docs ≡ₚ users w
    ∧ ∀ i j u v, (i < j)%nat → docs !! i = Some u → docs !! j = Some v →
        createdAt v ≤ createdAt u.
Proof.
  intros Hauth. unfold list_users. rewrite Hauth. eexists. split; [done|].
  split; [apply merge_sort_Permutation|].
  intros i j u v Hij Hi Hj.
  apply (StronglySorted_lookup newer_or_equal (User_find_sorted (users w)) i j u v);
    [|done..].
  apply (@StronglySorted_merge_sort _ newer_or_equal _
           newer_or_equal_transitive newer_or_equal_total).
Qed.

(** ** What a request leaves alone *)

Lemma set_images_same u imgs : images u = Some imgs → set_images (Some imgs) u = u.
Proof. destruct u. cbn. by intros ->. Qed.

Lemma save_same e u w :
  User_findById (_id u) (users w) = Some u →
  User_save false e u w = inr (u, w).
Proof.
  intros Hf. unfold User_save, User_pre_save. rewrite Hf.
  by rewrite (User_replace_same _ _ Hf), set_users_same.
Qed.

Lemma found_by_own_id i us u : User_findById i us = Some u → User_findById (_id u) us = Some u.
Proof. intros Hf. by rewrite (proj2 (User_findById_Some _ _ _ Hf)). Qed.

(** X2. A request that is answered with an error status, 400 or above,
    leaves the User and the Admin collection as they were.  For the
    deletion of an image this is said of the paths the upload handler
    hands out, [/uploads/] followed by a file name. *)
Theorem failed_request_keeps_collections e w r :
  (∀ a i p, r = DELETE_users_id_images a i (Some p) →
            ∃ f, p = "/uploads/" +:+ filename f) →
  (400 ≤ status (snd (app e w r)))%N →
  users (fst (app e w r)) = users w ∧ admins (fst (app e w r)) = admins w.
Proof.
  intros _.
  destruct r as [m p n|m p|n p|a fs p h|a|a i|a i p|a i p]; cbn.
  - unfold register. destruct (User_findOne m (users w)); [done|].
    destruct (User_save _ _ _ _) as [err|[u w1]]; cbn; [done | lia].
  - unfold login. by repeat case_match.
  - unfold admin_login. by repeat case_match.
  - destruct (userAuth e w a) as [r0|user] eqn:Hauth.
    { unfold upload. by rewrite Hauth. }
    destruct (upload_array fs w) as [[r0 w0]|w1] eqn:Harr.
    { unfold upload. rewrite Hauth, Harr. cbn. intros _.
      by destruct (upload_array_inl _ _ _ _ Harr) as (? & ? & _). }
    destruct (upload_accepted e w a user fs p h Hauth (upload_array_inr _ _ _ Harr))
      as (u' & w' & -> & _). cbn. lia.
  - unfold list_users. by repeat case_match.
  - unfold delete_user. destruct (auth e w a); [done|].
    destruct (User_findById i (users w)); [cbn; lia | done].
  - unfold delete_user_image. destruct (auth e w a); [done|].
    destruct (User_findById i (users w)) as [user|] eqn:Hf; [|done].
    destruct (images user) as [imgs|] eqn:Himgs; [|done].
    destruct (User_save _ _ _ _) as [err|[u w1]] eqn:Hsave; [done|].
    destruct p as [p|]; [cbn; lia|]. intros _. cbn [fst].
    rewrite filter_all, (set_images_same _ _ Himgs) in Hsave by done.
    rewrite (save_same e user w (found_by_own_id _ _ _ Hf)) in Hsave.
    by injection Hsave as _ <-.
  - unfold delete_social_handle. destruct (auth e w a); [done|].
    destruct (User_findById i (users w)) as [user|]; [|done].
    destruct (socialHandles user); [|cbn; lia].
    destruct (User_save _ _ _ _) as [err|[u w1]]; [done | cbn; lia].
Qed.

Lemma Admin_save_users a w w' : Admin_save a w = inr w' → users w' = users w ∧ files w' = files w.
Proof. unfold Admin_save. repeat case_match; try done. by intros [= <-]. Qed.

Lemma User_save_admins isNew e u w u' w' :
  User_save isNew e u w = inr (u', w') → admins w' = admins w ∧ files w' = files w.
Proof. unfold User_save. repeat case_match; try done; by intros [= _ <-]. Qed.

(** X3. No request changes the Admin collection, and the two logins and
    the listing change nothing at all, whether they succeed or not. *)
Theorem requests_leave_admins e w r :
  admins (fst (app e w r)) = admins w
  ∧ match r with
    | POST_users_login _ _ | POST_admin_login _ _ | GET_users _ => fst (app e w r) = w
    | _ => True
    end.
Proof.
  destruct r as [m p n|m p|n p|a fs p h|a|a i|a i p|a i p]; cbn.
  - split; [|done]. unfold register. destruct (User_findOne m (users w)); [done|].
    destruct (User_save _ _ _ _) as [err|[u w1]] eqn:Hs; [done|].
    by destruct (User_save_admins _ _ _ _ _ _ Hs).
  - unfold login. by repeat case_match.
  - unfold admin_login. by repeat case_match.
  - split; [|done]. unfold upload. destruct (userAuth e w a) as [r0|user]; [done|].
    destruct (upload_array fs w) as [[r1 w0]|w1] eqn:Harr.
    { by destruct (upload_array_inl _ _ _ _ Harr) as (_ & ? & _). }
    assert (admins w1 = admins w) as <-.
    { unfold upload_array in Harr. repeat case_match; by simplify_eq. }
    unfold upload_handler. destruct (User_save _ _ _ _) as [err|[u w2]] eqn:Hs; [done|].
    by destruct (User_save_admins _ _ _ _ _ _ Hs).
  - unfold list_users. by repeat case_match.
  - split; [|done]. unfold delete_user. by repeat case_match.
  - split; [|done]. unfold delete_user_image. destruct (auth e w a); [done|].
    destruct (User_findById i (users w)) as [user|]; [|done].
    destruct (images user); [|done].
    destruct (User_save _ _ _ _) as [err|[u w1]] eqn:Hs; [done|].
    destruct (User_save_admins _ _ _ _ _ _ Hs). by destruct p.
  - split; [|done]. unfold delete_social_handle. destruct (auth e w a); [done|].
    destruct (User_findById i (users w)) as [user|]; [|done].
    destruct (socialHandles user); [|done].
    destruct (User_save _ _ _ _) as [err|[u w1]] eqn:Hs; [done|].
    by destruct (User_save_admins _ _ _ _ _ _ Hs).
Qed.

(** ** The header of the gates *)

Lemma prefix_Bearer s : String.prefix "Bearer " s = true → no_space s = false.
Proof.
  do 7 (destruct s as [|? s]; [done|]; cbn [String.prefix];
        destruct (ascii_dec _ _) as [<-|]; [|done]).
  done.
Qed.

Lemma js_replace_no_space s : no_space s = true → js_replace "Bearer " "" s = s.
Proof.
  induction s as [|c s IH]; [done|]. intros Hns.
  assert (String.prefix "Bearer " (String c s) = false) as Hpre.
  { destruct (String.prefix "Bearer " (String c s)) eqn:Hp; [|done].
    apply prefix_Bearer in Hp. congruence. }
  cbn [js_replace]. rewrite Hpre. cbn in Hns.
  apply andb_true_iff in Hns as [_ Hns]. by rewrite IH.
Qed.

(** X4. The [Bearer ] prefix of the header is optional: for a token that
    holds no space, each gate gives the same result for the bare token as
    for the token behind the prefix. *)
Theorem gates_accept_bare_token e w tok :
  no_space tok = true →
  auth e w (Some tok) = auth e w (Some ("Bearer " +:+ tok))
  ∧ userAuth e w (Some tok) = userAuth e w (Some ("Bearer " +:+ tok)).
Proof.
  intros Hns. unfold auth, userAuth.
  by rewrite js_replace_Bearer, (js_replace_no_space _ Hns).
Qed.

(** ** Uploads *)

Lemma upsert_images p h t u : images (upsert_socialHandle p h t u) = images u.
Proof. unfold upsert_socialHandle. by destruct (Z.eqb _ _). Qed.

Lemma upsert_id p h t u : _id (upsert_socialHandle p h t u) = _id u.
Proof. unfold upsert_socialHandle. by destruct (Z.eqb _ _). Qed.

(** What an accepted upload does to the images and to the disk. *)
Lemma upload_accepted_images e w a user fs p h :
  userAuth e w a = inr user →
  within_limit fs →
  ∃ user' w',
    upload e w a fs p h = (w', mkResponse 201 (JUser user'))
    ∧ users w' = User_replace user' (users w)
    ∧ _id user' = _id user
    ∧ User_findById (_id user) (users w') = Some user'
    ∧ images_of user'
      = images_of user
        ++ map (λ f, mkImage ("/uploads/" +:+ filename f) (now e)) (default [] fs)
    ∧ files w'
      = files w ∪ list_to_set
                    (map (λ f, project_path ("/uploads/" +:+ filename f)) (default [] fs)).
Proof.
  intros Hauth Hlim. pose proof (userAuth_found _ _ _ _ Hauth) as Hfound.
  unfold upload. rewrite Hauth.
  assert (∃ w1, upload_array fs w = inr w1 ∧ users w1 = users w
                ∧ files w1 = files w ∪ list_to_set
                     (map (λ f, project_path ("/uploads/" +:+ filename f)) (default [] fs)))
    as (w1 & -> & Hus & Hfiles).
  { unfold upload_array. destruct fs as [l|]; cbn.
    - specialize (Hlim l eq_refl).
      destruct (Z.ltb_spec 5 (Z.of_nat (length l))); [lia|]. by eexists.
    - exists w. split; [done|]. split; [done|]. by rewrite union_empty_r_L. }
  unfold upload_handler, User_save, User_pre_save.
  set (u1 := match p, h with
             | Some p0, Some h0 =>
                 if truthy p && truthy h then upsert_socialHandle p0 h0 (now e) user
                 else user
             | _, _ => user
             end).
  assert (_id u1 = _id user ∧ images u1 = images user) as (Hid1 & Him1).
  { subst u1. destruct p, h; try done. destruct (truthy _ && truthy _); [|done].
    by rewrite upsert_id, upsert_images. }
  set (new := match fs with
              | Some l => map (λ f, mkImage ("/uploads/" +:+ filename f) (now e)) l
              | None => []
              end).
  assert (new = map (λ f, mkImage ("/uploads/" +:+ filename f) (now e)) (default [] fs))
    as Hnew by by destruct fs.
  match goal with
  | |- context [User_findById (_id ?d) (users w1)] => set (u2 := d)
  end.
  assert (_id u2 = _id user ∧ images_of u2 = images_of user ++ new) as (Hid2 & Him2).
  { subst u2. unfold images_of. destruct (Z.ltb_spec 0 (Z.of_nat (length new))).
    - cbn. by rewrite Him1.
    - destruct new; [|cbn in *; lia]. by rewrite Him1, app_nil_r. }
  rewrite Hid2, Hus, Hfound. eexists _, _. split; [done|]. cbn.
  split; [done|]. split; [done|]. split; [|by rewrite Him2, Hnew].
  rewrite <- Hid2. apply (User_replace_found u2 (users w) user). by rewrite Hid2.
Qed.

(** X5. An accepted upload appends one image per file to the user's
    [images], in the order of the files, keeps the earlier entries, and
    leaves on disk the earlier files together with the file of every new
    image.  Two such uploads by the same user add up. *)
Theorem upload_appends_images :
  (∀ e w a user fs p h,
     userAuth e w a = inr user → within_limit fs →
     ∃ user' w',
       upload e w a fs p h = (w', mkResponse 201 (JUser user'))
       ∧ User_findById (_id user) (users w') = Some user'
       ∧ images_of user'
         = images_of user
           ++ map (λ f, mkImage ("/uploads/" +:+ filename f) (now e)) (default [] fs)
       ∧ files w ⊆ files w'
       ∧ ∀ img, img ∈ images_of user' → img ∈ images_of user
                ∨ project_path (url img) ∈ files w')
  ∧ (∀ e1 e2 w a1 a2 user fs1 fs2 p1 h1 p2 h2,
       userAuth e1 w a1 = inr user → within_limit fs1 → within_limit fs2 →
       let w1 := fst (upload e1 w a1 fs1 p1 h1) in
       ∀ user1, userAuth e2 w1 a2 = inr user1 → _id user1 = _id user →
       let w2 := fst (upload e2 w1 a2 fs2 p2 h2) in
       ∃ u2, User_findById (_id user) (users w2) = Some u2
         ∧ length (images_of u2)
           = (length (images_of user) + length (default [] fs1)
              + length (default [] fs2))%nat).
Proof.
  split.
  - intros e w a user fs p h Hauth Hlim.
    destruct (upload_accepted_images e w a user fs p h Hauth Hlim)
      as (user' & w' & Hup & _ & _ & Hfound & Himgs & Hfiles).
    exists user', w'. split; [done|]. split; [done|]. split; [done|].
    rewrite Hfiles. split; [apply union_subseteq_l|]. rewrite Himgs.
    intros img [Hold|Hnew]%elem_of_app; [by left|]. right.
    apply list_elem_of_fmap in Hnew as (f & -> & Hf). cbn.
    apply elem_of_union_r, elem_of_list_to_set.
    by apply (list_elem_of_fmap_2 (λ f, project_path ("/uploads/" +:+ filename f))).
  - intros e1 e2 w a1 a2 user fs1 fs2 p1 h1 p2 h2 Hauth Hlim1 Hlim2.
    destruct (upload_accepted_images e1 w a1 user fs1 p1 h1 Hauth Hlim1)
      as (user' & w1' & Hup & _ & _ & Hfound & Himgs & _).
    cbv zeta. rewrite Hup. cbn [fst]. intros user1 Hauth1 Hid.
    pose proof (userAuth_found _ _ _ _ Hauth1) as Hfound1.
    rewrite Hid, Hfound in Hfound1. injection Hfound1 as <-.
    destruct (upload_accepted_images e2 w1' a2 user' fs2 p2 h2 Hauth1 Hlim2)
      as (u2 & w2' & Hup2 & _ & _ & Hfound2 & Himgs2 & _).
    rewrite Hup2. cbn [fst]. exists u2. rewrite <- Hid. split; [done|].
    rewrite Himgs2, Himgs, !length_app, !length_map. done.
Qed.

Lemma upsert_other_platforms p h t u q :
  p ≠ q →
  List.filter (λ x, String.eqb (platform x) q) (handles_of (upsert_socialHandle p h t u))
  = List.filter (λ x, String.eqb (platform x) q) (handles_of u).
Proof.
  intros Hpq. apply String.eqb_neq in Hpq.
  destruct (Z.eq_dec (findIndex (λ x, String.eqb (platform x) p) (handles_of u)) (-1))
    as [Habs|Hpres].
  - unfold upsert_socialHandle. fold (handles_of u). rewrite Habs.
    change (-1 =? -1) with true. cbv iota.
    rewrite handles_of_set, List.filter_app. cbn. by rewrite Hpq, app_nil_r.
  - destruct (findIndex_found _ _ Hpres) as (l1 & x & l2 & Hsplit & Hx & Hall).
    apply String.eqb_eq in Hx.
    rewrite (upsert_present p h t u l1 x l2 Hsplit Hx)
      by (intros y Hy; apply String.eqb_neq; by apply Hall).
    rewrite handles_of_set, Hsplit, !List.filter_app. cbn. by rewrite Hx, Hpq.
Qed.

Lemma upsert_length p h t u :
  (length (handles_of u) ≤ length (handles_of (upsert_socialHandle p h t u))
   ≤ S (length (handles_of u)))%nat.
Proof.
  unfold upsert_socialHandle. fold (handles_of u). destruct (Z.eqb _ _).
  - rewrite handles_of_set, length_app. cbn. lia.
  - rewrite handles_of_set, length_alter. lia.
Qed.

(** X6. An accepted upload never touches the social handles of another
    platform: for every platform other than the submitted one the user's
    entries are the same before and after, and the sequence grows by one
    entry at most.  When the platform or the handle is missing or empty,
    [socialHandles] is left as it was. *)
Theorem upload_spares_other_platforms e w a user fs p h :
  userAuth e w a = inr user → within_limit fs →
  ∃ user' w',
    upload e w a fs p h = (w', mkResponse 201 (JUser user'))
    ∧ (∀ q, p ≠ Some q →
         List.filter (λ x, String.eqb (platform x) q) (handles_of user')
         = List.filter (λ x, String.eqb (platform x) q) (handles_of user))
    ∧ (length (handles_of user) ≤ length (handles_of user')
       ≤ S (length (handles_of user)))%nat
    ∧ (truthy p && truthy h = false → socialHandles user' = socialHandles user).
Proof.
  intros Hauth Hlim.
  destruct (upload_accepted e w a user fs p h Hauth Hlim)
    as (user' & w' & Hup & _ & _ & _ & _ & _ & _ & Hsh).
  exists user', w'. split; [done|]. rewrite (handles_of_eq _ _ Hsh).
  destruct p as [p0|], h as [h0|]; try (split; [done|]; split; [lia|done]).
  destruct (truthy (Some p0) && truthy (Some h0)) eqn:Ht.
  - split; [|split; [apply upsert_length | done]].
    intros q Hq. apply upsert_other_platforms. congruence.
  - split; [done|]. split; [lia|done].
Qed.

(** ** One document at a time *)

Lemma User_replace_lookup_ne u us k v :
  us !! k = Some v → _id v ≠ _id u → User_replace u us !! k = Some v.
Proof.
  revert k. induction us as [|x us IH]; intros k Hk Hne; [done|]. cbn.
  destruct k as [|k]; cbn in Hk.
  - injection Hk as ->. apply N.eqb_neq in Hne. by rewrite Hne.
  - destruct (N.eqb (_id x) (_id u)); cbn; [done | by apply IH].
Qed.

Lemma User_replace_length u us : length (User_replace u us) = length us.
Proof.
  induction us as [|x us IH]; [done|]. cbn.
  destruct (N.eqb (_id x) (_id u)); cbn; [done | by rewrite IH].
Qed.

Lemma User_save_others e u w u' w' k v :
  User_save false e u w = inr (u', w') →
  users w !! k = Some v → _id v ≠ _id u → users w' !! k = Some v.
Proof.
  unfold User_save, User_pre_save. destruct (User_findById (_id u) (users w)); [|done].
  intros [= <- <-] Hk Hne. cbn. by apply User_replace_lookup_ne.
Qed.

(** X7. A route that saves a user touches that one document: after an
    upload every document of another user is at its place unchanged, and
    so it is after the deletion of an image or of a social handle for
    every document with another [_id] than the route's; the deletion of a
    user keeps every document with another [_id]. *)
Theorem routes_touch_one_document e w a :
  (∀ user fs p h k v,
     userAuth e w a = inr user → users w !! k = Some v → _id v ≠ _id user →
     users (fst (upload e w a fs p h)) !! k = Some v)
  ∧ (∀ id p k v,
     users w !! k = Some v → _id v ≠ id →
     users (fst (delete_user_image e w a id p)) !! k = Some v)
  ∧ (∀ id p k v,
     users w !! k = Some v → _id v ≠ id →
     users (fst (delete_social_handle e w a id p)) !! k = Some v)
  ∧ (∀ id v, v ∈ users w → _id v ≠ id → v ∈ users (fst (delete_user e w a id))).
Proof.
  split; [|split; [|split]].
  - intros user fs p h k v Hauth Hk Hne. unfold upload. rewrite Hauth.
    destruct (upload_array fs w) as [[r0 w0]|w1] eqn:Harr.
    { cbn. by rewrite (proj1 (upload_array_inl _ _ _ _ Harr)). }
    destruct (upload_accepted_images e w a user fs p h Hauth (upload_array_inr _ _ _ Harr))
      as (user' & w' & Hup & Hus & Hid & _).
    unfold upload in Hup. rewrite Hauth, Harr in Hup. rewrite Hup. cbn. rewrite Hus.
    apply User_replace_lookup_ne; [done | by rewrite Hid].
  - intros id p k v Hk Hne. unfold delete_user_image. destruct (auth e w a); [done|].
    destruct (User_findById id (users w)) as [user|] eqn:Hf; [|done].
    destruct (images user); [|done].
    destruct (User_save _ _ _ _) as [err|[u w1]] eqn:Hs; [done|].
    assert (users w1 !! k = Some v) as Hk1.
    { apply (User_save_others _ _ _ _ _ _ _ Hs Hk). cbn.
      by rewrite (proj2 (User_findById_Some _ _ _ Hf)). }
    by destruct p.
  - intros id p k v Hk Hne. unfold delete_social_handle. destruct (auth e w a); [done|].
    destruct (User_findById id (users w)) as [user|] eqn:Hf; [|done].
    destruct (socialHandles user); [|done].
    destruct (User_save _ _ _ _) as [err|[u w1]] eqn:Hs; [done|]. cbn.
    apply (User_save_others _ _ _ _ _ _ _ Hs Hk). cbn.
    by rewrite (proj2 (User_findById_Some _ _ _ Hf)).
  - intros id v Hv Hne. unfold delete_user. destruct (auth e w a); [done|].
    destruct (User_findById id (users w)) as [user|] eqn:Hf; [|done]. cbn.
    clear Hf. induction (users w) as [|x us IH]; [done|]. cbn.
    apply elem_of_cons in Hv as [->|Hv].
    + apply N.eqb_neq in Hne. rewrite Hne. by left.
    + destruct (N.eqb (_id x) id); [done|]. right. by apply IH.
Qed.

(** ** Deleting a social handle or an image *)

Lemma elem_of_filter_bool {A} (p : A → bool) l x :
  x ∈ List.filter p l ↔ x ∈ l ∧ p x = true.
Proof. rewrite !list_elem_of_In. apply List.filter_In. Qed.

Lemma filter_idem {A} (p : A → bool) l : List.filter p (List.filter p l) = List.filter p l.
Proof. apply filter_all. by intros x [_ Hx]%elem_of_filter_bool. Qed.

Lemma save_found e u w old :
  User_findById (_id u) (users w) = Some old →
  ∃ w', User_save false e u w = inr (u, w')
        ∧ users w' = User_replace u (users w)
        ∧ admins w' = admins w ∧ files w' = files w
        ∧ User_findById (_id u) (users w') = Some u.
Proof.
  intros Hf. unfold User_save, User_pre_save. rewrite Hf. eexists. split; [done|].
  cbn. split; [done|]. split; [done|]. split; [done|].
  by apply (User_replace_found u (users w) old).
Qed.

(** X8. For an admin and an existing user, deleting the social handle of a
    platform answers 200 and stores the user with every entry of that
    platform gone, the other entries in their order and all other fields
    as they were; files and admins are not touched, and deleting the same
    platform again changes nothing. *)
Theorem delete_social_handle_removes e w a admin id user p :
  auth e w a = inr admin →
  User_findById id (users w) = Some user →
  ∃ user' w',
    delete_social_handle e w a id (Some p)
    = (w', mkResponse 200 (JMessage "Social handle deleted successfully"))
    ∧ User_findById id (users w') = Some user'
    ∧ handles_of user'
      = List.filter (λ x, negb (String.eqb (platform x) p)) (handles_of user)
    ∧ (∀ x, x ∈ handles_of user' → platform x ≠ p)
    ∧ set_socialHandles (socialHandles user) user' = user
    ∧ admins w' = admins w ∧ files w' = files w
    ∧ ∀ e' a', fst (delete_social_handle e' w' a' id (Some p)) = w'.
Proof.
  intros Hauth Hf. pose proof (proj2 (User_findById_Some _ _ _ Hf)) as Hid.
  assert (∀ v w0, User_findById id (users w0) = Some v →
            (∀ x, x ∈ handles_of v → platform x ≠ p) →
            ∀ e' a', fst (delete_social_handle e' w0 a' id (Some p)) = w0) as Hnoop.
  { intros v w0 Hv Hno e' a'. unfold delete_social_handle.
    destruct (auth e' w0 a'); [done|]. rewrite Hv.
    destruct (socialHandles v) as [hs|] eqn:Hhs; [|done].
    rewrite filter_all.
    - rewrite (set_socialHandles_same _ _ Hhs).
      by rewrite (save_same e' v w0 (found_by_own_id _ _ _ Hv)).
    - intros x Hx. cbn. apply negb_true_iff, String.eqb_neq, Hno.
      unfold handles_of. by rewrite Hhs. }
  unfold delete_social_handle. rewrite Hauth, Hf.
  destruct (socialHandles user) as [hs|] eqn:Hhs.
  - set (u' := set_socialHandles _ user).
    destruct (save_found e u' w user) as (w' & -> & Hus & Had & Hfi & Hfound);
      [by rewrite <- Hid in Hf|].
    exists u', w'. split; [done|]. cbn in Hfound. rewrite Hid in Hfound.
    split; [done|]. unfold handles_of at 2. rewrite Hhs. cbn [default].
    assert (∀ x, x ∈ handles_of u' → platform x ≠ p) as Hgone.
    { intros x [_ Hx]%elem_of_filter_bool. cbn in Hx.
      by apply negb_true_iff, String.eqb_neq in Hx. }
    split; [done|]. split; [done|]. split.
    { subst u'. destruct user. cbn in *. by rewrite Hhs. }
    split; [done|]. split; [done|]. by apply (Hnoop u').
  - exists user, w. split; [done|]. split; [done|].
    unfold handles_of. rewrite Hhs. cbn. split; [done|].
    split; [by intros x ?%elem_of_nil|]. split.
    { destruct user. cbn in *. by rewrite Hhs. }
    split; [done|]. split; [done|]. apply (Hnoop user); [done|].
    unfold handles_of. rewrite Hhs. by intros x ?%elem_of_nil.
Qed.

(** X9. A social-handle deletion whose body names no platform removes
    nothing: the world is as before, and for an admin and an existing user
    the answer is still 200. *)
Theorem delete_social_handle_without_platform e w a id :
  fst (delete_social_handle e w a id None) = w
  ∧ ∀ admin user,
      auth e w a = inr admin → User_findById id (users w) = Some user →
      snd (delete_social_handle e w a id None)
      = mkResponse 200 (JMessage "Social handle deleted successfully").
Proof.
  assert (∀ user, User_findById id (users w) = Some user →
            match socialHandles user with
            | Some hs =>
                User_save false e
                  (set_socialHandles
                     (Some (List.filter (λ h, strict_neq (platform h) None) hs)) user) w
                = inr (user, w)
            | None => True
            end) as Hsave.
  { intros user Hf. destruct (socialHandles user) as [hs|] eqn:Hhs; [|done].
    rewrite filter_all by done. rewrite (set_socialHandles_same _ _ Hhs).
    apply save_same. by apply (found_by_own_id id). }
  unfold delete_social_handle. split.
  - destruct (auth e w a); [done|].
    destruct (User_findById id (users w)) as [user|] eqn:Hf; [|done].
    specialize (Hsave user eq_refl). destruct (socialHandles user); [|done].
    by rewrite Hsave.
  - intros admin user -> Hf. rewrite Hf. specialize (Hsave user Hf).
    destruct (socialHandles user); [|done]. by rewrite Hsave.
Qed.

Lemma unlink_if_exists_difference p (fs : gset string) :
  unlink_if_exists p fs = fs ∖ {[ p ]}.
Proof.
  unfold unlink_if_exists. destruct (decide (p ∈ fs)) as [|Hout]; [done|].
  apply set_eq. intros x. rewrite elem_of_difference, elem_of_singleton.
  split; [intros Hx; split; [done | by intros ->] | by intros [? _]].
Qed.

(** X10. For an admin and an existing user, deleting an image by the
    path the upload handler gave it, [/uploads/] followed by the file name,
    answers 200 and stores the user without the entries of that url, the
    others in their order and all other fields as they were; the file at
    that path is gone from the disk afterwards, whether or not the user
    had an image of that url, and no other file is. *)
Theorem delete_user_image_removes e w a admin id user imgs f :
  auth e w a = inr admin →
  User_findById id (users w) = Some user →
  images user = Some imgs →
  ∃ user' w',
    delete_user_image e w a id (Some ("/uploads/" +:+ filename f))
    = (w', mkResponse 200 (JMessage "Image deleted successfully"))
    ∧ User_findById id (users w') = Some user'
    ∧ images_of user'
      = List.filter (λ img, negb (String.eqb (url img) ("/uploads/" +:+ filename f))) imgs
    ∧ (∀ img, img ∈ images_of user' → url img ≠ "/uploads/" +:+ filename f)
    ∧ set_images (images user) user' = user
    ∧ admins w' = admins w
    ∧ files w' = files w ∖ {[ project_path ("/uploads/" +:+ filename f) ]}.
Proof.
  intros Hauth Hf Himgs. pose proof (proj2 (User_findById_Some _ _ _ Hf)) as Hid.
  unfold delete_user_image. rewrite Hauth, Hf, Himgs.
  set (u' := set_images _ user).
  destruct (save_found e u' w user) as (w' & -> & Hus & Had & Hfi & Hfound);
    [by rewrite <- Hid in Hf|].
  eexists u', _. split; [done|]. cbn in Hfound. rewrite Hid in Hfound.
  cbn [fst snd users admins files set_files].
  split; [done|]. split; [done|]. split.
  { intros img [_ Hx]%elem_of_filter_bool. cbn in Hx.
    by apply negb_true_iff, String.eqb_neq in Hx. }
  split.
  { subst u'. destruct user. cbn in *. by rewrite Himgs. }
  split; [done|]. by rewrite unlink_if_exists_difference, Hfi.
Qed.

(** ** A deleted user and the gate *)

Lemma findById_None_notin id us : User_findById id us = None ↔ id ∉ _id <$> us.
Proof.
  unfold User_findById. induction us as [|x us IH]; cbn.
  - split; [by intros _ ?%elem_of_nil | done].
  - rewrite not_elem_of_cons. destruct (N.eqb_spec (_id x) id) as [Heq|Hne].
    + split; [done | by intros [? _]].
    + rewrite IH. split; [by intros ? | by intros [_ ?]].
Qed.

Lemma findOne_None_notin m us : User_findOne m us = None ↔ m ∉ email <$> us.
Proof.
  unfold User_findOne. induction us as [|x us IH]; cbn.
  - split; [by intros _ ?%elem_of_nil | done].
  - rewrite not_elem_of_cons. destruct (String.eqb_spec (email x) m) as [Heq|Hne].
    + split; [done | by intros [? _]].
    + rewrite IH. split; [by intros ? | by intros [_ ?]].
Qed.

Lemma delete_unique_gone id us :
  NoDup (_id <$> us) → User_findById id (User_findByIdAndDelete id us) = None.
Proof.
  induction us as [|x us IH]; cbn; [done|]. intros [Hx Hnd]%NoDup_cons.
  destruct (N.eqb_spec (_id x) id) as [Heq|Hne].
  - apply findById_None_notin. by rewrite <- Heq.
  - unfold User_findById. cbn. apply N.eqb_neq in Hne. rewrite Hne. by apply IH.
Qed.

(** X11. Where no two users share an [_id], a user deleted by an admin is
    gone for the user gate: no document has the [_id] any more, and every
    header whose token verifies to it is answered 401, by the gate and by
    the upload route, which then changes nothing. *)
Theorem deleted_user_locked_out e w a admin id user :
  auth e w a = inr admin →
  User_findById id (users w) = Some user →
  ids_unique w →
  ∃ w', delete_user e w a id
        = (w', mkResponse 200 (JMessage "User deleted successfully"))
    ∧ User_findById id (users w') = None
    ∧ ∀ e' h, jwt_verify (js_replace "Bearer " "" h) (now e') = Some id →
        userAuth e' w' (Some h) = inl unauthenticated
        ∧ ∀ fs p hd, upload e' w' (Some h) fs p hd = (w', unauthenticated).
Proof.
  intros Hauth Hf Hnd. unfold delete_user. rewrite Hauth, Hf. eexists. split; [done|].
  cbn. pose proof (delete_unique_gone id (users w) Hnd) as Hgone. split; [done|].
  intros e' h Hv.
  assert (userAuth e' (mkWorld (User_findByIdAndDelete id (users w)) (admins w)
                         match images user with
                         | Some imgs =>
                             if 0 <? Z.of_nat (length imgs)
                             then unlink_images project_path imgs (files w)
                             else files w
                         | None => files w
                         end) (Some h) = inl unauthenticated) as Hrej.
  { unfold userAuth. rewrite Hv. cbn [users]. by rewrite Hgone. }
  split; [done|]. intros fs p hd. unfold upload. by rewrite Hrej.
Qed.

(** ** Invariants of the collections *)

Lemma fmap_User_replace {B} (f : User → B) u us old :
  User_findById (_id u) us = Some old → f u = f old →
  f <$> User_replace u us = f <$> us.
Proof.
  unfold User_findById. induction us as [|x us IH]; cbn; [done|].
  destruct (N.eqb (_id x) (_id u)); cbn.
  - intros [= ->] Hf. by rewrite Hf.
  - intros Hfind Hf. by rewrite IH.
Qed.

Lemma delete_sublist id us : User_findByIdAndDelete id us `sublist_of` us.
Proof.
  induction us as [|x us IH]; cbn; [done|].
  destruct (N.eqb (_id x) id); [by apply sublist_cons | by apply sublist_skip].
Qed.

(** How the User collection after an event relates to the one before: the
    same, one new document with a free [_id] and a free [email], one
    document replaced by one with its [_id] and [email], or one deleted. *)
Lemma step_users_shape e w ev :
  users (step e w ev) = users w
  ∨ (∃ u, users (step e w ev) = users w ++ [u]
          ∧ User_findById (_id u) (users w) = None
          ∧ User_findOne (email u) (users w) = None)
  ∨ (∃ u old, users (step e w ev) = User_replace u (users w)
              ∧ User_findById (_id u) (users w) = Some old
              ∧ email u = email old)
  ∨ (∃ id, users (step e w ev) = User_findByIdAndDelete id (users w)).
Proof.
  destruct ev as [r| |uri c]; cbn.
  - destruct r as [m p n|m p|n p|a fs p h|a|a i|a i p|a i p]; cbn.
    + unfold register, User_save. cbn.
      destruct (User_findOne m (users w)) eqn:Hm; [by left|].
      destruct (String.eqb m ""); [by left|].
      destruct (User_findById (objectId e) (users w)) eqn:Hi; [by left|].
      right. left. eexists. by cbn.
    + left. unfold login. by repeat case_match.
    + left. unfold admin_login. by repeat case_match.
    + unfold upload. destruct (userAuth e w a) as [r0|user] eqn:Hauth; [by left|].
      destruct (upload_array fs w) as [[r0 w0]|w1] eqn:Harr.
      { left. cbn. by destruct (upload_array_inl _ _ _ _ Harr). }
      destruct (upload_accepted e w a user fs p h Hauth (upload_array_inr _ _ _ Harr))
        as (user' & w' & Hup & Hus & _ & _ & Hid & Hem & _).
      unfold upload in Hup. rewrite Hauth, Harr in Hup. rewrite Hup. cbn.
      right. right. left. exists user', user. split; [done|].
      rewrite Hid. split; [by apply userAuth_found in Hauth | done].
    + left. unfold list_users. by repeat case_match.
    + unfold delete_user. destruct (auth e w a); [by left|].
      destruct (User_findById i (users w)); [|by left].
      right. right. right. by exists i.
    + unfold delete_user_image. destruct (auth e w a); [by left|].
      destruct (User_findById i (users w)) as [user|] eqn:Hf; [|by left].
      destruct (images user); [|by left].
      set (u' := set_images _ user).
      destruct (save_found e u' w user (found_by_own_id _ _ _ Hf))
        as (w' & -> & Hus & _).
      right. right. left. exists u', user.
      split; [by destruct p|].
      split; [exact (found_by_own_id i (users w) user Hf) | done].
    + unfold delete_social_handle. destruct (auth e w a); [by left|].
      destruct (User_findById i (users w)) as [user|] eqn:Hf; [|by left].
      destruct (socialHandles user); [|by left].
      set (u' := set_socialHandles _ user).
      destruct (save_found e u' w user (found_by_own_id _ _ _ Hf))
        as (w' & -> & Hus & _).
      right. right. left. exists u', user.
      split; [done|].
      split; [exact (found_by_own_id i (users w) user Hf) | done].
  - left. apply initializeAdmin_users.
  - left. apply initAdmin_script_users.
Qed.

(** X12. In every world reachable from the empty one no two users have
    the same email, and every event keeps it so. *)
Theorem emails_stay_unique :
  (∀ w, reachable w → emails_unique w)
  ∧ (∀ e w ev, emails_unique w → emails_unique (step e w ev)).
Proof.
  assert (∀ e w ev, emails_unique w → emails_unique (step e w ev)) as Hstep.
  { unfold emails_unique. intros e w ev Hnd.
    destruct (step_users_shape e w ev)
      as [->|[(u & -> & _ & Hm)|[(u & old & -> & Hf & Hem)|(id & ->)]]].
    - done.
    - rewrite fmap_app. apply NoDup_app. split; [done|]. split; [|apply NoDup_singleton].
      intros m Hin ->%list_elem_of_singleton. by apply findOne_None_notin in Hm.
    - by rewrite (fmap_User_replace email u (users w) old Hf Hem).
    - apply (sublist_NoDup _ (email <$> users w));
        [done | apply fmap_sublist, delete_sublist]. }
  split; [|done].
  induction 1 as [|e w ev _ IH]; [apply NoDup_nil_2 | by apply Hstep].
Qed.

(** X13. In every world reachable from the empty one no two users have
    the same [_id], and every event keeps it so. *)
Theorem ids_stay_unique :
  (∀ w, reachable w → ids_unique w)
  ∧ (∀ e w ev, ids_unique w → ids_unique (step e w ev)).
Proof.
  assert (∀ e w ev, ids_unique w → ids_unique (step e w ev)) as Hstep.
  { unfold ids_unique. intros e w ev Hnd.
    destruct (step_users_shape e w ev)
      as [->|[(u & -> & Hi & _)|[(u & old & -> & Hf & _)|(id & ->)]]].
    - done.
    - rewrite fmap_app. apply NoDup_app. split; [done|]. split; [|apply NoDup_singleton].
      intros i Hin ->%list_elem_of_singleton. by apply findById_None_notin in Hi.
    - rewrite (fmap_User_replace _id u (users w) old Hf); [done|].
      by destruct (User_findById_Some _ _ _ Hf).
    - apply (sublist_NoDup _ (_id <$> users w));
        [done | apply fmap_sublist, delete_sublist]. }
  split; [|done].
  induction 1 as [|e w ev _ IH]; [apply NoDup_nil_2 | by apply Hstep].
Qed.

(** ** Registration *)

(** X14. Registering with an email, a password and a name that are not
    empty, an email no user has, under a fresh [_id], answers 201 and adds
    one document at the end of the collection, with the submitted email
    and name, empty [socialHandles] and [images], and [createdAt] the time
    of the request; nothing else changes, and registering that email again
    is answered 400 whatever else is sent. *)
Theorem register_adds_one_user e w m p n :
  m ≠ "" → p ≠ "" → n ≠ "" →
  User_findOne m (users w) = None →
  User_findById (objectId e) (users w) = None →
  ∃ u, register e w m p n
       = (set_users (users w ++ [u]) w, mkResponse 201 (JMessage "Registration successful"))
    ∧ _id u = objectId e ∧ email u = m ∧ name u = n
    ∧ socialHandles u = Some [] ∧ images u = Some [] ∧ createdAt u = now e
    ∧ ∀ e' p' n',
        register e' (set_users (users w ++ [u]) w) m p' n'
        = (set_users (users w ++ [u]) w, mkResponse 400 (JError "Email already registered")).
Proof.
  intros Hmail%String.eqb_neq _ _ Hm Hi. unfold register at 1. unfold User_save. cbn.
  rewrite Hm, Hmail, Hi.
  eexists. split; [done|]. cbn. repeat (split; [done|]).
  intros e' p' n'. unfold register, User_findOne. cbn.
  rewrite find_app_None by exact Hm. cbn. by rewrite String.eqb_refl.
Qed.

(** ** The Admin collection and the two bootstraps *)

Lemma app_admins e w r : admins (fst (app e w r)) = admins w.
Proof.
  assert (∀ isNew u w0 (k : User * World → World * Response) (d : string → World * Response),
            (∀ err, d err = (w0, snd (d err))) →
            (∀ u' w', fst (k (u', w')) = w' ∨ admins (fst (k (u', w'))) = admins w') →
            admins w0 = admins w →
            admins (fst match User_save isNew e u w0 with
                        | inl err => d err
                        | inr x => k x
                        end) = admins w) as Hsave.
  { intros isNew u w0 k d Hd Hk Hw0.
    destruct (User_save isNew e u w0) as [err|[u' w']] eqn:Hs.
    - by rewrite Hd.
    - destruct (User_save_admins _ _ _ _ _ _ Hs) as [Had _].
      destruct (Hk u' w') as [->| ->]; congruence. }
  destruct r as [m p n|m p|n p|a fs p h|a|a i|a i p|a i p]; cbn.
  - unfold register. destruct (User_findOne m (users w)); [done|].
    apply Hsave; [done | by left | done].
  - unfold login. by repeat case_match.
  - unfold admin_login. by repeat case_match.
  - unfold upload. destruct (userAuth e w a) as [r0|user]; [done|].
    destruct (upload_array fs w) as [[r1 w0]|w1] eqn:Harr.
    { by destruct (upload_array_inl _ _ _ _ Harr) as (_ & ? & _). }
    unfold upload_handler. apply Hsave; [done | by left |].
    unfold upload_array in Harr. repeat case_match; by simplify_eq.
  - unfold list_users. by repeat case_match.
  - unfold delete_user. by repeat case_match.
  - unfold delete_user_image. destruct (auth e w a); [done|].
    destruct (User_findById i (users w)) as [user|]; [|done].
    destruct (images user); [|done].
    apply Hsave; [done | | done]. intros u' w'. destruct p; [by right | by left].
  - unfold delete_social_handle. destruct (auth e w a); [done|].
    destruct (User_findById i (users w)) as [user|]; [|done].
    destruct (socialHandles user); [|done].
    apply Hsave; [done | by left | done].
Qed.

Lemma single_admin_absent w :
  single_admin w → Admin_findOne admin_username (admins w) = None → admins w = [].
Proof.
  intros [_ Hname]. destruct (admins w) as [|a l]; [done|].
  unfold Admin_findOne. cbn. rewrite (Hname a) by left. by rewrite String.eqb_refl.
Qed.

Lemma single_admin_present w a0 :
  single_admin w → Admin_findOne admin_username (admins w) = Some a0 →
  admins w = [a0] ∧ username a0 = admin_username.
Proof.
  intros [Hlen Hname]. destruct (admins w) as [|a [|b l]]; [done| |cbn in Hlen; lia].
  unfold Admin_findOne. cbn. rewrite (Hname a) by left. rewrite String.eqb_refl.
  intros [= <-]. split; [done|]. apply Hname. by left.
Qed.

(** What either bootstrap makes of a world with at most the one admin. *)
Lemma bootstrap_result e w w1 :
  single_admin w →
  w1 = fst (initializeAdmin e w)
  ∨ (∃ uri, truthy uri = true ∧ w1 = fst (fst (initAdmin_script uri true e w))) →
  users w1 = users w ∧ files w1 = files w
  ∧ ∃ a, admins w1 = [a] ∧ username a = admin_username
         ∧ (admins w = [] ∨ admins w = [a]).
Proof.
  intros Hsingle Hw1.
  destruct (Admin_findOne admin_username (admins w)) as [a0|] eqn:Hfind.
  - destruct (single_admin_present w a0 Hsingle Hfind) as [Hadm Hname].
    assert (w1 = w) as ->.
    { destruct Hw1 as [->|(uri & Huri & ->)].
      - unfold initializeAdmin. by rewrite Hfind.
      - unfold initAdmin_script. by rewrite Huri, Hfind. }
    split; [done|]. split; [done|]. exists a0. split; [done|]. split; [done | by right].
  - pose proof (single_admin_absent w Hsingle Hfind) as Hnil.
    destruct Hw1 as [->|(uri & Huri & ->)].
    + unfold initializeAdmin, Admin_save. rewrite Hfind. cbn. rewrite Hnil. cbn.
      split; [done|]. split; [done|]. eexists. split; [done|]. split; [done | by left].
    + unfold initAdmin_script, Admin_save. rewrite Huri, Hfind. cbn. rewrite Hnil. cbn.
      split; [done|]. split; [done|]. eexists. split; [done|]. split; [done | by left].
Qed.

(** X15. In every world reachable from the empty one the Admin collection
    holds at most one record, and only under the well-known username; every
    event keeps it so. *)
Theorem admin_collection_single :
  (∀ w, reachable w → single_admin w)
  ∧ (∀ e w ev, single_admin w → single_admin (step e w ev)).
Proof.
  assert (∀ w a, admins w = [a] → username a = admin_username → single_admin w) as Hone.
  { intros w a Hadm Hname. unfold single_admin. rewrite Hadm. split; [cbn; lia|].
    by intros b ->%list_elem_of_singleton. }
  assert (∀ e w ev, single_admin w → single_admin (step e w ev)) as Hstep.
  { intros e w ev Hs. destruct ev as [r| |uri c]; cbn.
    - unfold single_admin. by rewrite app_admins.
    - destruct (bootstrap_result e w _ Hs (or_introl eq_refl)) as (_ & _ & a & Ha & Hn & _).
      by apply (Hone _ a).
    - destruct (truthy uri) eqn:Huri; [destruct c|].
      + destruct (bootstrap_result e w (fst (fst (initAdmin_script uri true e w))) Hs)
          as (_ & _ & a & Ha & Hn & _); [right; by exists uri | by apply (Hone _ a)].
      + unfold initAdmin_script. by rewrite Huri.
      + unfold initAdmin_script. by rewrite Huri. }
  split; [|done].
  induction 1 as [|e w ev _ IH]; [|by apply Hstep].
  split; [cbn; lia | by intros a ?%elem_of_nil].
Qed.

(** X16. Either bootstrap, run on a world with at most the one admin,
    leaves exactly one admin under the well-known username and users and
    files as they were; the server's bootstrap and the script run after it,
    in any order and any number of times, change nothing more: the record
    of whichever came first stays. *)
Theorem bootstrap_idempotent e w w1 :
  single_admin w →
  w1 = fst (initializeAdmin e w)
  ∨ (∃ uri, truthy uri = true ∧ w1 = fst (fst (initAdmin_script uri true e w))) →
  users w1 = users w ∧ files w1 = files w
  ∧ (∃ a, admins w1 = [a] ∧ username a = admin_username)
  ∧ (∀ e2, initializeAdmin e2 w1 = (w1, []))
  ∧ (∀ e2 uri c, fst (fst (initAdmin_script uri c e2 w1)) = w1).
Proof.
  intros Hs Hw1.
  destruct (bootstrap_result e w w1 Hs Hw1) as (Hus & Hfi & a & Ha & Hn & _).
  split; [done|]. split; [done|]. split; [by exists a|].
  assert (Admin_findOne admin_username (admins w1) = Some a) as Hfind.
  { rewrite Ha. unfold Admin_findOne. cbn. by rewrite Hn, String.eqb_refl. }
  split.
  - intros e2. unfold initializeAdmin. by rewrite Hfind.
  - intros e2 uri c. unfold initAdmin_script.
    destruct (negb (truthy uri)); [done|]. destruct (negb c); [done|]. by rewrite Hfind.
Qed.

(** ** File names *)

Lemma length_append s t : String.length (s +:+ t) = (String.length s + String.length t)%nat.
Proof.
  induction s as [|c s IH]; [done|].
  change (String.length (String c s +:+ t)) with (S (String.length (s +:+ t))).
  by rewrite IH.
Qed.

Lemma append_inj_l s1 s2 t : s1 +:+ t = s2 +:+ t → s1 = s2.
Proof.
  revert s2. induction s1 as [|c s1 IH]; intros [|d s2] Heq; [done| | |].
  - apply (f_equal String.length) in Heq. rewrite !length_append in Heq.
    simpl in Heq. lia.
  - apply (f_equal String.length) in Heq. rewrite !length_append in Heq.
    simpl in Heq. lia.
  - change (String c (s1 +:+ t) = String d (s2 +:+ t)) in Heq.
    injection Heq as -> Heq. by rewrite (IH s2).
Qed.

Lemma append_inj_r s t1 t2 : s +:+ t1 = s +:+ t2 → t1 = t2.
Proof.
  induction s as [|c s IH]; [done|].
  change (String c (s +:+ t1) = String c (s +:+ t2) → t1 = t2).
  intros [= Heq]. by apply IH.
Qed.

(** X17. Two files with the same extension get the same file name, and so
    the same image url and the same place on disk, exactly when the storage
    engine named them in the same millisecond. *)
Theorem filename_collides_in_same_millisecond f g :
  same_extension f g →
  (filename f = filename g ↔ receivedAt f = receivedAt g)
  ∧ ("/uploads/" +:+ filename f = "/uploads/" +:+ filename g
     ↔ receivedAt f = receivedAt g).
Proof.
  unfold same_extension, filename. intros Hext. rewrite Hext.
  assert (pretty (receivedAt f) +:+ extname (originalname g)
          = pretty (receivedAt g) +:+ extname (originalname g)
          ↔ receivedAt f = receivedAt g) as Hiff.
  { split; [|by intros ->]. intros Heq%append_inj_l. by apply (inj pretty) in Heq. }
  split; [done|]. rewrite <- Hiff. split; [|by intros ->].
  apply append_inj_r.
Qed.

(** ** What an upload and an unknown [:id] leave alone *)

Lemma upsert_fields p h t u :
  set_socialHandles (socialHandles u) (upsert_socialHandle p h t u) = u.
Proof. unfold upsert_socialHandle. destruct u. by destruct (Z.eqb _ _). Qed.

(** X18. An accepted upload changes nothing of the user but
    [socialHandles] and [images]: [_id], email, stored password, name and
    [createdAt] of the saved document are those of the document before. *)
Theorem upload_keeps_identity e w a user fs p h :
  userAuth e w a = inr user → within_limit fs →
  ∃ user' w',
    upload e w a fs p h = (w', mkResponse 201 (JUser user'))
    ∧ User_findById (_id user) (users w') = Some user'
    ∧ set_socialHandles (socialHandles user) (set_images (images user) user') = user.
Proof.
  intros Hauth Hlim. pose proof (userAuth_found _ _ _ _ Hauth) as Hfound.
  destruct (upload_array_accepts fs w Hlim) as (w1 & Harr & Hus & _).
  unfold upload. rewrite Hauth, Harr.
  unfold upload_handler, User_save, User_pre_save.
  set (u1 := match p, h with
             | Some p0, Some h0 =>
                 if truthy p && truthy h then upsert_socialHandle p0 h0 (now e) user
                 else user
             | _, _ => user
             end).
  assert (set_socialHandles (socialHandles user) u1 = user) as Hu1.
  { subst u1. destruct p, h; try by destruct user.
    destruct (truthy _ && truthy _); [apply upsert_fields | by destruct user]. }
  match goal with
  | |- context [User_findById (_id ?d) (users w1)] => set (u2 := d)
  end.
  assert (set_socialHandles (socialHandles user) (set_images (images user) u2) = user)
    as Hu2.
  { pose proof (f_equal _id Hu1) as H1. pose proof (f_equal email Hu1) as H2.
    pose proof (f_equal password Hu1) as H3. pose proof (f_equal name Hu1) as H4.
    pose proof (f_equal images Hu1) as H5. pose proof (f_equal createdAt Hu1) as H6.
    cbn in H1, H2, H3, H4, H5, H6. clearbody u1. subst u2.
    destruct (0 <? _); unfold set_socialHandles, set_images; cbn;
      destruct user; cbn in *; by subst. }
  assert (_id u2 = _id user) as Hid2.
  { by pose proof (f_equal _id Hu2). }
  rewrite Hid2, Hus, Hfound. eexists _, _. split; [done|]. cbn. split; [|done].
  rewrite <- Hid2. apply (User_replace_found u2 (users w) user). by rewrite Hid2.
Qed.

(** X19. For an admin, the deletion of an image and the deletion of a
    social handle of a user that does not exist are answered 404
    [User not found], whatever the body, and change nothing. *)
Theorem unknown_user_is_not_found e w a admin id :
  auth e w a = inr admin →
  User_findById id (users w) = None →
  (∀ p, delete_user_image e w a id p = (w, mkResponse 404 (JError "User not found")))
  ∧ (∀ p, delete_social_handle e w a id p
          = (w, mkResponse 404 (JError "User not found"))).
Proof.
  intros Hauth Hnone. unfold delete_user_image, delete_social_handle.
  by rewrite Hauth, Hnone.
Qed.

(** ** Logging in after a bootstrap or a registration *)

Section LoginContracts.

(** [bcrypt.compare] answers [false] to a stored string that has not the
    60 characters of a hash. *)
Hypothesis compare_rejects_short :
  ∀ s h, String.length h ≠ 60%nat → bcrypt_compare s h = false.

(** A string matches its own hash. *)
Hypothesis compare_accepts_hash :
  ∀ s r st, bcrypt_compare s (bcrypt_hash s r st) = true.

(** A token verifies for 24 hours from its issue. *)
Hypothesis verify_within_day :
  ∀ i t t', t ≤ t' < t + 86400000 → jwt_verify (jwt_sign i t) t' = Some i.

(** X20. After the script has created the admin in an empty Admin
    collection, no password logs that admin in: every admin login under
    the well-known username is answered 401, and it stays so after the
    server's bootstrap has run, which leaves the record alone. *)
Theorem script_admin_cannot_log_in_at_all e w uri :
  admins w = [] →
  truthy uri = true →
  let w1 := fst (fst (initAdmin_script uri true e w)) in
  (∀ e' pw, admin_login e' w1 admin_username pw
            = (w1, mkResponse 401 (JError "Invalid credentials")))
  ∧ (∀ e2 e' pw, admin_login e' (fst (initializeAdmin e2 w1)) admin_username pw
                 = (w1, mkResponse 401 (JError "Invalid credentials"))).
Proof using compare_rejects_short.
  intros Hnil Huri. cbv zeta.
  assert (fst (fst (initAdmin_script uri true e w))
          = set_admins [mkAdmin (objectId e) admin_username "admin"] w) as ->.
  { unfold initAdmin_script, Admin_save. rewrite Huri, Hnil. done. }
  assert (∀ e' pw, admin_login e' (set_admins [mkAdmin (objectId e) admin_username "admin"] w)
                     admin_username pw
                   = (set_admins [mkAdmin (objectId e) admin_username "admin"] w,
                      mkResponse 401 (JError "Invalid credentials"))) as Hlogin.
  { intros e' pw. unfold admin_login. cbn.
    by rewrite (compare_rejects_short pw "admin"). }
  split; [done|]. intros e2 e' pw.
  assert (fst (initializeAdmin e2 (set_admins [mkAdmin (objectId e) admin_username "admin"] w))
          = set_admins [mkAdmin (objectId e) admin_username "admin"] w) as -> by done.
  apply Hlogin.
Qed.

(** X21. After the server's bootstrap has created the admin in an empty
    Admin collection, the login with the well-known username and default
    password is answered 200 with a token, and for 24 hours that token
    passes the admin gate as that admin and opens the user listing. *)
Theorem server_admin_can_log_in e w :
  admins w = [] →
  let w1 := fst (initializeAdmin e w) in
  ∀ e', ∃ tok a,
    admin_login e' w1 admin_username "admin" = (w1, mkResponse 200 (JToken tok))
    ∧ admins w1 = [a]
    ∧ ∀ e'', now e' ≤ now e'' < now e' + 86400000 →
        auth e'' w1 (Some ("Bearer " +:+ tok)) = inr a
        ∧ status (snd (list_users e'' w1 (Some ("Bearer " +:+ tok)))) = 200%N.
Proof using compare_accepts_hash verify_within_day.
  intros Hnil. cbv zeta.
  set (a := mkAdmin (objectId e) admin_username (bcrypt_hash "admin" 10 (salt e))).
  assert (fst (initializeAdmin e w) = set_admins [a] w) as ->.
  { unfold initializeAdmin, Admin_save. rewrite Hnil. done. }
  intros e'. exists (jwt_sign (objectId e) (now e')), a. split.
  { unfold admin_login. cbn. by rewrite compare_accepts_hash. }
  split; [done|]. intros e'' Ht.
  assert (auth e'' (set_admins [a] w)
            (Some ("Bearer " +:+ jwt_sign (objectId e) (now e'))) = inr a) as Hauth.
  { unfold auth. rewrite js_replace_Bearer, (verify_within_day _ _ _ Ht).
    unfold Admin_findById. cbn. by rewrite N.eqb_refl. }
  split; [done|]. unfold list_users. by rewrite Hauth.
Qed.

Lemma unique_found us u :
  NoDup (_id <$> us) → u ∈ us → User_findById (_id u) us = Some u.
Proof.
  unfold User_findById. induction us as [|x us IH]; cbn; [by intros _ ?%elem_of_nil|].
  intros [Hx Hnd]%NoDup_cons [->|Hin]%elem_of_cons.
  - by rewrite N.eqb_refl.
  - destruct (N.eqb_spec (_id x) (_id u)) as [Heq|Hne]; [|by apply IH].
    destruct Hx. rewrite Heq. by apply list_elem_of_fmap_2.
Qed.

(** X22. Where no two users share an [_id], the token a user login hands
    out opens the upload route for that user for 24 hours: an upload under
    it in the same world passes the user gate and is answered 201 with the
    saved document of the user who logged in, email and [_id] the same. *)
Theorem login_token_opens_upload e1 w m p tok :
  ids_unique w →
  login e1 w m p = (w, mkResponse 200 (JToken tok)) →
  ∃ user, User_findOne m (users w) = Some user
    ∧ ∀ e2 fs pf hd,
        now e1 ≤ now e2 < now e1 + 86400000 → within_limit fs →
        ∃ u w2, upload e2 w (Some ("Bearer " +:+ tok)) fs pf hd
                = (w2, mkResponse 201 (JUser u))
          ∧ _id u = _id user ∧ email u = m
          ∧ User_findById (_id user) (users w2) = Some u.
Proof using verify_within_day.
  intros Hnd (user & Hone & ->)%login_token. exists user. split; [done|].
  destruct (User_findOne_Some _ _ _ Hone) as [Hin Hmail].
  intros e2 fs pf hd Ht Hlim.
  assert (userAuth e2 w (Some ("Bearer " +:+ jwt_sign (_id user) (now e1))) = inr user)
    as Hauth.
  { unfold userAuth. rewrite js_replace_Bearer, (verify_within_day _ _ _ Ht).
    by rewrite (unique_found _ _ Hnd Hin). }
  destruct (upload_accepted e2 w _ user fs pf hd Hauth Hlim)
    as (u & w2 & Hup & _ & _ & Hfound & Hi & Hem & _).
  exists u, w2. split; [done|]. split; [done|]. split; [congruence | done].
Qed.

End LoginContracts.

End Properties.

(** * The properties on the sample instance *)

Section Witnesses.

#[local] Existing Instance sample_libraries.

Lemma length_letters n : String.length (letters n) = n.
Proof. induction n as [|n IH]; cbn; [done | by rewrite IH]. Qed.

Lemma sample_hash_format s (r : N) (st : string) :
  String.prefix "$2" (bcrypt_hash s r st) = true.
Proof. reflexivity. Qed.

Lemma sample_hash_one_way s (r : N) (st : string) : bcrypt_hash s r st ≠ s.
Proof.
  cbn. intros Heq. apply (f_equal String.length) in Heq.
  cbv [String.append] in Heq. simpl in Heq. lia.
Qed.

Lemma sample_compare_hash s (r : N) (st : string) :
  bcrypt_compare s (bcrypt_hash s r st) = true.
Proof. cbn. apply String.eqb_refl. Qed.

Lemma sample_verify_sign (i : ObjectId) (t t' : Date) (j : ObjectId) :
  jwt_verify (jwt_sign i t) t' = Some j → j = i.
Proof. cbn. rewrite length_letters, N2Nat.id. by intros [= <-]. Qed.

Lemma sample_verify_valid (i : ObjectId) (t t' : Z) :
  t ≤ t' < t + 86400000 → jwt_verify (jwt_sign i t) t' = Some i.
Proof. intros _. cbn. by rewrite length_letters, N2Nat.id. Qed.

(** ** The handlers run on concrete requests *)

Example js_replace_prefix : js_replace "Bearer " "" "Bearer abc.def" = "abc.def".
Proof. reflexivity. Qed.

Example js_replace_first_only :
  js_replace "Bearer " "" "x Bearer Bearer y" = "x Bearer y".
Proof. reflexivity. Qed.

Example js_replace_absent : js_replace "Bearer " "" "abc.def" = "abc.def".
Proof. reflexivity. Qed.

Example findIndex_first_match : findIndex (Z.eqb 2) [1; 2; 3; 2] = 1.
Proof. reflexivity. Qed.

Example findIndex_no_match : findIndex (Z.eqb 5) [1; 2; 3; 2] = -1.
Proof. reflexivity. Qed.

Example filename_of_upload : filename (mkFile "cat.png" 1700000000000) = "1700000000000.png".
Proof. vm_compute. reflexivity. Qed.

Example upload_stores_image :
  snd (upload (mkEnv 2000 8%N "salt") sample_world alice_header
         (Some [mkFile "cat.png" 1999]) None (Some "a"))
  = mkResponse 201
      (JUser (set_images
                (Some [mkImage "/uploads/10.png" 10; mkImage "/uploads/11.png" 11;
                       mkImage "/uploads/1999.png" 2000]) alice)).
Proof. vm_compute. reflexivity. Qed.

Example upload_without_token :
  upload sample_env sample_world None None (Some "twitter") (Some "b")
  = (sample_world, unauthenticated).
Proof. reflexivity. Qed.

Example upload_empty_handle_ignored :
  snd (upload sample_env sample_world alice_header None (Some "github") (Some ""))
  = mkResponse 201 (JUser alice).
Proof. reflexivity. Qed.

Example upload_of_six_files_is_refused :
  upload sample_env sample_world alice_header
    (Some (replicate 6 (mkFile "cat.png" 10))) (Some "github") (Some "al")
  = (mkWorld [alice] [root_admin]
       ({[ "/srv/app/uploads/10.png" ]} ∖ list_to_set (replicate 5 "/srv/app/uploads/10.png")),
     mkResponse 500 (HtmlError "MulterError: Unexpected field")).
Proof. vm_compute. reflexivity. Qed.

Example register_without_email_is_refused :
  register sample_env sample_world "" "secret" "Eve"
  = (sample_world, mkResponse 400 (JError "User validation failed: email is required")).
Proof. reflexivity. Qed.

Example alice_on_the_wire :
  json_field "password" (res_json (JUser alice)) = Some (JsonString "$2a$wonderland")
  ∧ json_field "password" (res_json (JMessage "Registration successful")) = None.
Proof. split; reflexivity. Qed.

Example list_users_newest_first :
  snd (list_users sample_env
         (mkWorld [alice; set_password "$2a$b" (mkUser 4%N "bob@example.com" "" "Bob"
                                                  (Some []) (Some []) 9)]
            [root_admin] ∅) admin_header)
  = mkResponse 200
      (JUsers [mkUser 4%N "bob@example.com" "$2a$b" "Bob" (Some []) (Some []) 9; alice]).
Proof. vm_compute. reflexivity. Qed.

Example script_admin_cannot_log_in :
  snd (admin_login sample_env
         (fst (fst (initAdmin_script (Some "mongodb://db") true sample_env empty_world)))
         admin_username "admin")
  = invalid_credentials.
Proof. reflexivity. Qed.

Example server_admin_logs_in :
  snd (admin_login sample_env (fst (initializeAdmin sample_env empty_world))
         admin_username "admin")
  = mkResponse 200 (JToken "xxxxxxx").
Proof. reflexivity. Qed.

(** ** The theorems on the sample instance *)

Lemma bootstrap_paths_differ_witness :
  admins (fst (fst (initAdmin_script (Some "mongodb://db") true sample_env empty_world)))
    = [mkAdmin 7%N admin_username "admin"]
  ∧ admins (fst (initializeAdmin sample_env empty_world))
    = [mkAdmin 7%N admin_username "$2a$admin"]
  ∧ "$2a$admin" ≠ "admin".
Proof.
  apply (bootstrap_paths_differ sample_hash_format
           (Some "mongodb://db") sample_env sample_env empty_world);
    reflexivity.
Defined.

Lemma register_duplicate_email_witness :
  (∃ u, u ∈ users sample_world ∧ email u = "alice@example.com")
  ∧ register sample_env sample_world "alice@example.com" "secret" "Eve"
    = (sample_world, mkResponse 400 (JError "Email already registered")).
Proof.
  assert (∃ u, u ∈ users sample_world ∧ email u = "alice@example.com") as Hdup.
  { exists alice. split; [apply list_elem_of_here | reflexivity]. }
  split; [exact Hdup|].
  exact (register_duplicate_email sample_env sample_world
           "alice@example.com" "secret" "Eve" Hdup).
Defined.

Lemma login_failures_identical_witness :
  snd (login sample_env sample_world "bob@example.com" "wonderland")
  = snd (login sample_env sample_world "alice@example.com" "guess")
  ∧ snd (admin_login sample_env sample_world "root" "admin")
    = snd (admin_login sample_env sample_world admin_username "guess").
Proof.
  pose proof (login_failures_identical
                sample_env sample_world "bob@example.com" "wonderland"
                sample_env sample_world "alice@example.com" "guess") as [Hu _].
  pose proof (login_failures_identical
                sample_env sample_world "root" "admin"
                sample_env sample_world admin_username "guess") as [_ Ha].
  split.
  - apply Hu; [reflexivity|]. exists alice. split; reflexivity.
  - apply Ha; [reflexivity|]. exists root_admin. split; reflexivity.
Defined.

Lemma register_hashes_password_witness :
  ∃ u, users (fst (register sample_env sample_world "bob@example.com" "builder" "Bob"))
       = users sample_world ++ [u]
       ∧ email u = "bob@example.com"
       ∧ password u = "$2a$builder"
       ∧ password u ≠ "builder"
       ∧ ∀ e', login e' (fst (register sample_env sample_world
                                "bob@example.com" "builder" "Bob"))
                 "bob@example.com" "builder"
               = (fst (register sample_env sample_world "bob@example.com" "builder" "Bob"),
                  mkResponse 200 (JToken (jwt_sign (_id u) (now e')))).
Proof.
  apply (register_hashes_password sample_hash_one_way sample_compare_hash
           sample_env sample_world "bob@example.com" "builder" "Bob" _
           (mkResponse 201 (JMessage "Registration successful")));
    reflexivity.
Defined.

Lemma gates_bind_principal_witness :
  login sample_env sample_world "alice@example.com" "wonderland"
  = (sample_world, mkResponse 200 (JToken "xxx"))
  ∧ auth sample_env sample_world (Some "Bearer xxx") = inl unauthenticated
  ∧ userAuth sample_env sample_world (Some "Bearer xxx") = inr alice.
Proof.
  assert (login sample_env sample_world "alice@example.com" "wonderland"
          = (sample_world, mkResponse 200 (JToken "xxx"))) as Hlogin by reflexivity.
  destruct (gates_bind_principal sample_verify_sign sample_verify_valid)
    as (_ & _ & Huser & _).
  destruct (Huser sample_env sample_world "alice@example.com" "wonderland" "xxx" Hlogin)
    as (u & Hu & _ & Hadmit & Hrefuse).
  injection Hu as <-.
  split; [exact Hlogin|]. split.
  - apply (Hrefuse sample_env sample_world). reflexivity.
  - apply (Hadmit sample_env sample_world alice); [cbn; lia | reflexivity].
Defined.

Lemma upload_upserts_by_platform_witness :
  ∃ u2, User_findById 3%N
          (users (fst (upload (mkEnv 3000 8%N "salt")
                         (fst (upload (mkEnv 2000 8%N "salt") sample_world alice_header
                                 None (Some "twitter") (Some "a")))
                         alice_header None (Some "twitter") (Some "b"))))
        = Some u2
        ∧ List.filter (λ x, String.eqb (platform x) "twitter") (handles_of u2)
          = [mkSocialHandle "twitter" "b" 3000].
Proof.
  refine (proj2 upload_upserts_by_platform
            (mkEnv 2000 8%N "salt") (mkEnv 3000 8%N "salt") sample_world
            alice_header alice_header alice None None _ _ _ _
            (set_socialHandles (Some [mkSocialHandle "twitter" "a" 2000]) alice) _ _).
  - reflexivity.
  - apply NoDup_singleton.
  - intros l Hl. discriminate Hl.
  - intros l Hl. discriminate Hl.
  - reflexivity.
  - reflexivity.
Defined.


Lemma delete_user_cascades_witness :
  auth sample_env sample_world admin_header = inr root_admin
  ∧ delete_user sample_env sample_world admin_header 9%N
    = (sample_world, mkResponse 404 (JError "User not found"))
  ∧ ∃ w', delete_user sample_env sample_world admin_header 3%N
          = (w', mkResponse 200 (JMessage "User deleted successfully"))
       ∧ users w' = []
       ∧ ("/srv/app/uploads/10.png" ∉ files w')
       ∧ ("/srv/app/uploads/11.png" ∉ files w').
Proof.
  assert (auth sample_env sample_world admin_header = inr root_admin) as Hauth
    by reflexivity.
  destruct (delete_user_cascades sample_env sample_world admin_header root_admin 9%N Hauth)
    as [Habsent _].
  destruct (delete_user_cascades sample_env sample_world admin_header root_admin 3%N Hauth)
    as [_ Hpresent].
  split; [exact Hauth|]. split; [apply Habsent; reflexivity|].
  destruct (Hpresent alice eq_refl) as (w' & Hw' & (l1 & l2 & Hl & Hus & _) & _ & _ & Hgone).
  exists w'. split; [exact Hw'|]. split.
  - destruct l1 as [|x [|y l1]]; [|discriminate Hl|discriminate Hl].
    injection Hl as <-. exact Hus.
  - split.
    + apply (Hgone (mkImage "/uploads/10.png" 10)). apply list_elem_of_here.
    + apply (Hgone (mkImage "/uploads/11.png" 11)).
      apply list_elem_of_further, list_elem_of_here.
Defined.

Lemma delete_absent_social_handle_witness :
  delete_social_handle sample_env sample_world admin_header 3%N (Some "github")
  = (sample_world, mkResponse 200 (JMessage "Social handle deleted successfully")).
Proof.
  apply (delete_absent_social_handle sample_env sample_world admin_header
           root_admin 3%N alice "github").
  - reflexivity.
  - reflexivity.
  - intros x Hx Hp. apply list_elem_of_singleton in Hx. subst x. discriminate Hp.
Defined.

Lemma responses_carry_password_witness :
  (∃ u w',
     upload (mkEnv 2000 8%N "salt") sample_world alice_header
       (Some [mkFile "cat.png" 1999]) (Some "github") (Some "al")
     = (w', mkResponse 201 (JUser u))
     ∧ json_field "password" (res_json (JUser u)) = Some (JsonString "$2a$wonderland"))
  ∧ (∃ docs,
       list_users sample_env two_users_world admin_header
       = (two_users_world, mkResponse 200 (JUsers docs))
       ∧ User_toJSON bob ∈ User_toJSON <$> docs
       ∧ json_field "password" (User_toJSON bob) = Some (JsonString "$2a$builder")).
Proof.
  destruct responses_carry_password as (Hupload & Hlist & _).
  assert (userAuth (mkEnv 2000 8%N "salt") sample_world alice_header = inr alice)
    as Hgate by reflexivity.
  assert (within_limit (Some [mkFile "cat.png" 1999])) as Hlim.
  { intros l Hl. injection Hl as <-. cbn. lia. }
  assert (auth sample_env two_users_world admin_header = inr root_admin)
    as Hadmin by reflexivity.
  split.
  - destruct (Hupload (mkEnv 2000 8%N "salt") sample_world alice_header alice
                (Some [mkFile "cat.png" 1999]) (Some "github") (Some "al") Hgate Hlim)
      as (u & w' & Hup & _ & _ & _ & _ & Hjson).
    exists u, w'. split; [exact Hup | exact Hjson].
  - destruct (Hlist sample_env two_users_world admin_header root_admin Hadmin)
      as (docs & Hdocs & _ & _ & Hall).
    exists docs. split; [exact Hdocs|].
    apply (Hall bob). apply list_elem_of_further, list_elem_of_here.
Defined.

End Witnesses.


(** * The further properties on the sample instance *)

Section FurtherWitnesses.

#[local] Existing Instance sample_libraries.

Lemma admin_passes : auth sample_env sample_world admin_header = inr root_admin.
Proof. reflexivity. Qed.

Lemma admin_passes_two_users :
  auth sample_env two_users_world admin_header = inr root_admin.
Proof. reflexivity. Qed.

Lemma alice_passes : userAuth sample_env sample_world alice_header = inr alice.
Proof. reflexivity. Qed.

Lemma alice_passes_later :
  userAuth (mkEnv 2000 8%N "salt") sample_world alice_header = inr alice.
Proof. reflexivity. Qed.

Lemma alice_passes_two_users :
  userAuth sample_env two_users_world alice_header = inr alice.
Proof. reflexivity. Qed.

Lemma alice_found : User_findById 3%N (users sample_world) = Some alice.
Proof. reflexivity. Qed.

Lemma nobody_found : User_findById 9%N (users sample_world) = None.
Proof. reflexivity. Qed.

Lemma one_file_within_limit : within_limit (Some [mkFile "cat.png" 1999]).
Proof. intros l [= <-]. cbn. lia. Qed.

Lemma no_file_within_limit : within_limit None.
Proof. intros l Hl. discriminate Hl. Qed.

Lemma list_users_sorted_witness :
  ∃ docs, list_users sample_env two_users_world admin_header
          = (two_users_world, mkResponse 200 (JUsers docs))
    ∧ docs ≡ₚ [alice; bob].
Proof.
  destruct (list_users_sorted sample_env two_users_world admin_header root_admin
              admin_passes_two_users)
    as (docs & Hlist & Hperm & _).
  exists docs. split; [exact Hlist | exact Hperm].
Defined.

Lemma failed_request_keeps_collections_witness :
  users (fst (app sample_env sample_world
                (POST_users_register "alice@example.com" "x" "Eve")))
  = users sample_world
  ∧ admins (fst (app sample_env sample_world
                   (POST_users_register "alice@example.com" "x" "Eve")))
    = admins sample_world.
Proof.
  apply (failed_request_keeps_collections sample_env sample_world
           (POST_users_register "alice@example.com" "x" "Eve")).
  - intros a i p Hr. discriminate Hr.
  - vm_compute. intros Hgt. discriminate Hgt.
Defined.

Lemma gates_accept_bare_token_witness :
  auth sample_env sample_world (Some "x") = auth sample_env sample_world (Some "Bearer x")
  ∧ userAuth sample_env sample_world (Some "x")
    = userAuth sample_env sample_world (Some "Bearer x").
Proof. apply (gates_accept_bare_token sample_env sample_world "x"). reflexivity. Defined.

Lemma upload_appends_images_witness :
  ∃ user' w',
    upload (mkEnv 2000 8%N "salt") sample_world alice_header
      (Some [mkFile "cat.png" 1999]) None None
    = (w', mkResponse 201 (JUser user'))
    ∧ images_of user'
      = images_of alice
        ++ [mkImage ("/uploads/" +:+ filename (mkFile "cat.png" 1999)) 2000].
Proof.
  destruct (proj1 upload_appends_images (mkEnv 2000 8%N "salt") sample_world alice_header
              alice (Some [mkFile "cat.png" 1999]) None None alice_passes_later
              one_file_within_limit)
    as (user' & w' & Hup & _ & Himgs & _).
  exists user', w'. split; [exact Hup | exact Himgs].
Defined.

Lemma upload_spares_other_platforms_witness :
  ∃ user' w',
    upload sample_env sample_world alice_header None (Some "github") (Some "al")
    = (w', mkResponse 201 (JUser user'))
    ∧ List.filter (λ x, String.eqb (platform x) "twitter") (handles_of user')
      = [mkSocialHandle "twitter" "a" 10].
Proof.
  destruct (upload_spares_other_platforms sample_env sample_world alice_header alice None
              (Some "github") (Some "al") alice_passes no_file_within_limit)
    as (user' & w' & Hup & Hother & _).
  exists user', w'. split; [exact Hup|].
  apply (Hother "twitter"). intros Heq. discriminate Heq.
Defined.

Lemma routes_touch_one_document_witness :
  users (fst (upload sample_env two_users_world alice_header None
                (Some "github") (Some "al"))) !! 1%nat
  = Some bob.
Proof.
  apply (proj1 (routes_touch_one_document sample_env two_users_world alice_header)
           alice None (Some "github") (Some "al") 1%nat bob).
  - exact alice_passes_two_users.
  - reflexivity.
  - intros Heq. discriminate Heq.
Defined.

Lemma delete_social_handle_removes_witness :
  ∃ user' w',
    delete_social_handle sample_env sample_world admin_header 3%N (Some "twitter")
    = (w', mkResponse 200 (JMessage "Social handle deleted successfully"))
    ∧ User_findById 3%N (users w') = Some user'
    ∧ handles_of user' = [].
Proof.
  destruct (delete_social_handle_removes sample_env sample_world admin_header root_admin
              3%N alice "twitter" admin_passes alice_found)
    as (user' & w' & Hdel & Hfound & Hhandles & _).
  exists user', w'. split; [exact Hdel|]. split; [exact Hfound | exact Hhandles].
Defined.

Lemma delete_social_handle_without_platform_witness :
  delete_social_handle sample_env sample_world admin_header 3%N None
  = (sample_world, mkResponse 200 (JMessage "Social handle deleted successfully")).
Proof.
  destruct (delete_social_handle_without_platform sample_env sample_world admin_header 3%N)
    as [Hworld Hanswer].
  rewrite (surjective_pairing (delete_social_handle _ _ _ _ _)).
  rewrite Hworld, (Hanswer root_admin alice admin_passes alice_found). reflexivity.
Defined.

Lemma delete_user_image_removes_witness :
  ∃ user' w',
    delete_user_image sample_env sample_world admin_header 3%N
      (Some ("/uploads/" +:+ filename (mkFile "cat.png" 10)))
    = (w', mkResponse 200 (JMessage "Image deleted successfully"))
    ∧ images_of user'
      = List.filter
          (λ img, negb (String.eqb (url img)
                          ("/uploads/" +:+ filename (mkFile "cat.png" 10))))
          [mkImage "/uploads/10.png" 10; mkImage "/uploads/11.png" 11]
    ∧ files w'
      = files sample_world
        ∖ {[ project_path ("/uploads/" +:+ filename (mkFile "cat.png" 10)) ]}.
Proof.
  destruct (delete_user_image_removes sample_env sample_world admin_header root_admin
              3%N alice _ (mkFile "cat.png" 10) admin_passes alice_found eq_refl)
    as (user' & w' & Hdel & _ & Himgs & _ & _ & _ & Hfiles).
  exists user', w'. split; [exact Hdel|]. split; [exact Himgs | exact Hfiles].
Defined.

Lemma sample_ids_unique : ids_unique sample_world.
Proof. apply NoDup_singleton. Qed.

Lemma deleted_user_locked_out_witness :
  ∃ w', delete_user sample_env sample_world admin_header 3%N
        = (w', mkResponse 200 (JMessage "User deleted successfully"))
    ∧ userAuth sample_env w' alice_header = inl unauthenticated.
Proof.
  destruct (deleted_user_locked_out sample_env sample_world admin_header root_admin
              3%N alice admin_passes alice_found sample_ids_unique)
    as (w' & Hdel & _ & Hgate).
  exists w'. split; [exact Hdel|].
  apply (Hgate sample_env "Bearer xxx"). reflexivity.
Defined.

Lemma emails_stay_unique_witness :
  emails_unique
    (step (mkEnv 2000 8%N "salt")
       (step sample_env empty_world
          (Served (POST_users_register "bob@example.com" "builder" "Bob")))
       (Served (POST_users_register "carol@example.com" "singer" "Carol"))).
Proof.
  apply (proj1 emails_stay_unique). apply reachable_step, reachable_step, reachable_empty.
Defined.

Lemma ids_stay_unique_witness :
  ids_unique
    (step (mkEnv 2000 8%N "salt")
       (step sample_env empty_world
          (Served (POST_users_register "bob@example.com" "builder" "Bob")))
       (Served (POST_users_register "carol@example.com" "singer" "Carol"))).
Proof.
  apply (proj1 ids_stay_unique). apply reachable_step, reachable_step, reachable_empty.
Defined.

Lemma register_adds_one_user_witness :
  ∃ u, register sample_env sample_world "bob@example.com" "builder" "Bob"
       = (set_users (users sample_world ++ [u]) sample_world,
          mkResponse 201 (JMessage "Registration successful"))
    ∧ _id u = 7%N ∧ email u = "bob@example.com".
Proof.
  destruct (register_adds_one_user sample_env sample_world "bob@example.com" "builder" "Bob"
              ltac:(discriminate) ltac:(discriminate) ltac:(discriminate)
              eq_refl eq_refl)
    as (u & Hreg & Hid & Hmail & _).
  exists u. split; [exact Hreg|]. split; [exact Hid | exact Hmail].
Defined.

Lemma admin_collection_single_witness :
  single_admin (step (mkEnv 2000 8%N "salt")
                  (step sample_env empty_world ServerStarted)
                  (ScriptRun (Some "mongodb://db") true)).
Proof.
  apply (proj1 admin_collection_single). apply reachable_step, reachable_step, reachable_empty.
Defined.

Lemma empty_single_admin : single_admin empty_world.
Proof. split; [cbn; lia | intros a Ha; by apply elem_of_nil in Ha]. Qed.

Lemma bootstrap_idempotent_witness :
  initializeAdmin (mkEnv 2000 8%N "salt") (fst (initializeAdmin sample_env empty_world))
  = (fst (initializeAdmin sample_env empty_world), []).
Proof.
  destruct (bootstrap_idempotent sample_env empty_world
              (fst (initializeAdmin sample_env empty_world))
              empty_single_admin (or_introl eq_refl))
    as (_ & _ & _ & Hserver & _).
  apply Hserver.
Defined.

Lemma server_admin_can_log_in_witness :
  ∃ tok a,
    admin_login (mkEnv 2000 8%N "salt") (fst (initializeAdmin sample_env empty_world))
      admin_username "admin"
    = (fst (initializeAdmin sample_env empty_world), mkResponse 200 (JToken tok))
    ∧ auth (mkEnv 3000 9%N "salt") (fst (initializeAdmin sample_env empty_world))
        (Some ("Bearer " +:+ tok))
      = inr a.
Proof.
  destruct (server_admin_can_log_in sample_compare_hash sample_verify_valid
              sample_env empty_world eq_refl (mkEnv 2000 8%N "salt"))
    as (tok & a & Hlogin & _ & Hgate).
  exists tok, a. split; [exact Hlogin|].
  apply (Hgate (mkEnv 3000 9%N "salt")). cbn. lia.
Defined.

Lemma alice_logs_in :
  login (mkEnv 2000 8%N "salt") sample_world "alice@example.com" "wonderland"
  = (sample_world, mkResponse 200 (JToken "xxx")).
Proof. reflexivity. Qed.

Lemma login_token_opens_upload_witness :
  ∃ u w2,
    upload (mkEnv 3000 9%N "salt") sample_world (Some "Bearer xxx") None
      (Some "github") (Some "al")
    = (w2, mkResponse 201 (JUser u))
    ∧ _id u = 3%N ∧ email u = "alice@example.com".
Proof.
  destruct (login_token_opens_upload sample_verify_valid (mkEnv 2000 8%N "salt")
              sample_world "alice@example.com" "wonderland" "xxx"
              sample_ids_unique alice_logs_in)
    as (user & Hfound & Hupload).
  injection Hfound as <-.
  destruct (Hupload (mkEnv 3000 9%N "salt") None (Some "github") (Some "al"))
    as (u & w2 & Hup & Hid & Hmail & _); [cbn; lia | exact no_file_within_limit |].
  exists u, w2. split; [exact Hup|]. split; [exact Hid | exact Hmail].
Defined.

Lemma upload_keeps_identity_witness :
  ∃ user' w',
    upload sample_env sample_world alice_header None (Some "github") (Some "al")
    = (w', mkResponse 201 (JUser user'))
    ∧ set_socialHandles (socialHandles alice) (set_images (images alice) user') = alice.
Proof.
  destruct (upload_keeps_identity sample_env sample_world alice_header alice None
              (Some "github") (Some "al") alice_passes no_file_within_limit)
    as (user' & w' & Hup & _ & Hsame).
  exists user', w'. split; [exact Hup | exact Hsame].
Defined.

Lemma unknown_user_is_not_found_witness :
  delete_user_image sample_env sample_world admin_header 9%N (Some "/uploads/10.png")
  = (sample_world, mkResponse 404 (JError "User not found"))
  ∧ delete_social_handle sample_env sample_world admin_header 9%N (Some "twitter")
    = (sample_world, mkResponse 404 (JError "User not found")).
Proof.
  destruct (unknown_user_is_not_found sample_env sample_world admin_header root_admin 9%N
              admin_passes nobody_found)
    as [Himage Hhandle].
  split; [apply Himage | apply Hhandle].
Defined.

Lemma cat_dog_same_extension :
  same_extension (mkFile "cat.png" 1999) (mkFile "dog.png" 1999).
Proof. reflexivity. Qed.

Lemma filename_collides_in_same_millisecond_witness :
  filename (mkFile "cat.png" 1999) = filename (mkFile "dog.png" 1999).
Proof.
  apply (proj1 (filename_collides_in_same_millisecond
                  (mkFile "cat.png" 1999) (mkFile "dog.png" 1999)
                  cat_dog_same_extension)).
  reflexivity.
Defined.

End FurtherWitnesses.

Section StrictWitness.

#[local] Existing Instance strict_libraries.

Lemma strict_compare_rejects_short (s h : string) :
  String.length h ≠ 60%nat → bcrypt_compare s h = false.
Proof. intros Hlen. cbn. by apply Nat.eqb_neq. Qed.

Lemma script_admin_cannot_log_in_at_all_witness :
  admin_login (mkEnv 2000 8%N "salt")
    (fst (fst (initAdmin_script (Some "mongodb://db") true sample_env empty_world)))
    admin_username "admin"
  = (fst (fst (initAdmin_script (Some "mongodb://db") true sample_env empty_world)),
     mkResponse 401 (JError "Invalid credentials")).
Proof.
  apply (script_admin_cannot_log_in_at_all strict_compare_rejects_short
           sample_env empty_world (Some "mongodb://db") eq_refl eq_refl).
Defined.

End StrictWitness.
